(** * Instacart MCP adapter: request models, payload shaping and the API gateway

    A shallow embedding of [main.py]: the four pydantic models, the two
    tools [create_shopping_list] and [create_recipe], and the gateway
    [_call_instacart_api], followed by the properties of the payload and
    of the single HTTP exchange. *)

From Stdlib Require Import String Ascii ZArith List Bool Lia.
From Stdlib Require Import SpecFloat.
Import ListNotations.
Local Open Scope string_scope.
Local Open Scope list_scope.

Set Warnings "-register-all".

(** ** Python values

    The objects that travel through the program: what [BaseModel.dict]
    returns, what goes out as the [json=] body and what [response.json()]
    gives back.  A Python [dict] keeps insertion order and has unique keys;
    it is an association list here, read by first match and written with
    [dict_set].  A Python [float] is an IEEE-754 datum ([spec_float]), a
    Python [int] is unbounded. *)

Inductive value : Type :=
| VNone
| VBool (b : bool)
| VInt (z : Z)
| VFloat (f : spec_float)
| VStr (s : string)
| VList (l : list value)
| VDict (d : list (string * value)).

Definition pydict : Type := list (string * value).

(** [d.get(k)]: [None] when the key is absent. *)
Fixpoint dict_get (d : pydict) (k : string) : option value :=
  match d with
  | [] => None
  | (k', v) :: d' => if String.eqb k' k then Some v else dict_get d' k
  end.

(** [d[k] = v]: an existing key keeps its place, a new key goes last. *)
Fixpoint dict_set (d : pydict) (k : string) (v : value) : pydict :=
  match d with
  | [] => [(k, v)]
  | (k', v') :: d' =>
      if String.eqb k' k then (k', v) :: d' else (k', v') :: dict_set d' k v
  end.

Definition dict_keys (d : pydict) : list string := map fst d.

(** Does a [None] occur anywhere inside a value, as a dict entry or as a
    list element, at any depth? *)
Fixpoint has_none (v : value) : bool :=
  match v with
  | VNone => true
  | VList l => existsb has_none l
  | VDict d => existsb (fun kv => has_none (snd kv)) d
  | _ => false
  end.

(** ** Exceptions

    The program has no [try]: whatever is raised inside a call is what the
    call fails with. *)

Inductive validation_reason : Type :=
| Missing           (* a required field was not supplied *)
| NoneNotAllowed.   (* null for a field that is not Optional *)

(** Where in the input a validation error sits: a field name or a position
    in a list. *)
Inductive loc_item : Type :=
| Field (name : string)
| Index (i : nat).

(** What [httpx] raises when no response arrives. *)
Inductive transport_error : Type :=
| ConnectTimeout
| ReadTimeout
| WriteTimeout
| PoolTimeout
| ConnectError
| ReadError
| WriteError
| LocalProtocolError
| RemoteProtocolError.

(** The members of [httpx.TimeoutException]. *)
Definition is_timeout (e : transport_error) : bool :=
  match e with
  | ConnectTimeout | ReadTimeout | WriteTimeout | PoolTimeout => true
  | _ => false
  end.

(** ** HTTP exchange *)

Record Request : Type := mkRequest {
  method  : string;
  url     : string;
  json    : value;
  headers : list (string * string);
  timeout : spec_float
}.

(** Why [response.json()] can fail on a body: its bytes are not valid
    Unicode, the text is not a JSON document, an integer literal in it has
    more digits than Python converts, or it is nested deeper than the
    interpreter recurses. *)
Inductive decode_failure : Type :=
| NotUnicode
| NotJSON
| IntegerTooLong
| NestedTooDeep.

(** A response as the program uses it: the status line, the body as
    received and the result of decoding it with [response.json()]. *)
Record Response : Type := mkResponse {
  status_code : Z;
  text        : string;
  decoded     : decode_failure + value
}.

Inductive exn : Type :=
| ValidationError (loc : list loc_item) (why : validation_reason)
| UnicodeEncodeError
| ValueError
| HTTPStatusError (response : Response)
| UnicodeDecodeError
| JSONDecodeError
| RecursionError
| KeyError (key : string)
| TypeError
| TransportError (e : transport_error).

(** The exception [response.json()] raises for each failure. *)
Definition decode_exn (f : decode_failure) : exn :=
  match f with
  | NotUnicode => UnicodeDecodeError
  | NotJSON => JSONDecodeError
  | IntegerTooLong => ValueError
  | NestedTooDeep => RecursionError
  end.

Definition result (A : Type) : Type := (exn + A)%type.

(** ** Caller-supplied arguments

    For each field of a model the caller does one of three things: leaves
    it out, passes null, or passes a value (taken here after pydantic has
    checked it against the declared type). *)

Inductive arg (A : Type) : Type :=
| Unset
| Null
| Val (a : A).
Arguments Unset {A}.
Arguments Null {A}.
Arguments Val {A} a.

Definition is_set {A} (a : arg A) : bool :=
  match a with Unset => false | _ => true end.

(** A field declared [name: T]: it must be supplied and must not be null. *)
Definition required {A} (field : string) (a : arg A) : result A :=
  match a with
  | Val x => inr x
  | Unset => inl (ValidationError [Field field] Missing)
  | Null => inl (ValidationError [Field field] NoneNotAllowed)
  end.

(** A field declared [name: Optional[T] = default]: left out it takes the
    default, null stays [None]. *)
Definition optional {A} (default : option A) (a : arg A) : option A :=
  match a with
  | Unset => default
  | Null => None
  | Val x => Some x
  end.

Definition bind_result {A B} (r : result A) (k : A -> result B) : result B :=
  match r with
  | inl e => inl e
  | inr a => k a
  end.

Declare Scope result_scope.
Delimit Scope result_scope with result.
Notation "x <- r ;; k" := (bind_result r (fun x => k))
  (at level 61, r at next level, right associativity) : result_scope.

(** Validation of a [List[Model]] field, item by item.  The first failure
    found is reported with the item's position (pydantic reports all of
    them at once; below only success or failure of validation matters). *)
Fixpoint validate_items {A B} (validate : A -> result B) (i : nat)
         (l : list A) : result (list B) :=
  match l with
  | [] => inr []
  | a :: l' =>
      match validate a with
      | inl (ValidationError loc why) =>
          inl (ValidationError (Index i :: loc) why)
      | inl e => inl e
      | inr b => (bs <- validate_items validate (S i) l' ;; inr (b :: bs))%result
      end
  end.

(** ** Entries of [dict(exclude_none=True)]

    [BaseModel.dict(exclude_none=True)] walks the fields in declaration
    order and skips every field whose value is [None]; nested models are
    dumped the same way. *)

Definition entry (k : string) (v : value) : pydict := [(k, v)].

Definition opt_entry {A} (k : string) (to_value : A -> value)
           (o : option A) : pydict :=
  match o with
  | Some a => [(k, to_value a)]
  | None => []
  end.

(** A [quantity] is a [float] when the caller supplied it; the declared
    default of [LineItem.quantity] is the [int] literal [1], which pydantic
    keeps as it is. *)
Inductive number : Type :=
| NInt (z : Z)
| NFloat (f : spec_float).

Definition number_value (n : number) : value :=
  match n with
  | NInt z => VInt z
  | NFloat f => VFloat f
  end.

Definition str_list_value (l : list string) : value := VList (map VStr l).

(** ** The models (main.py, lines 17-45) *)

(** [class LineItem(BaseModel)] *)
Module LineItem.

Record t : Type := mk {
  name         : string;
  quantity     : option number;   (* Optional[float] = 1 *)
  unit         : option string;   (* Optional[str] = "each" *)
  display_text : option string    (* Optional[str] = None *)
}.

Record args : Type := mk_args {
  a_name         : arg string;
  a_quantity     : arg spec_float;
  a_unit         : arg string;
  a_display_text : arg string
}.

Definition arg_number (a : arg spec_float) : arg number :=
  match a with
  | Unset => Unset
  | Null => Null
  | Val f => Val (NFloat f)
  end.

Definition validate (a : args) : result t :=
  (n <- required "name" (a_name a) ;;
   inr {| name := n;
          quantity := optional (Some (NInt 1)) (arg_number (a_quantity a));
          unit := optional (Some "each") (a_unit a);
          display_text := optional None (a_display_text a) |})%result.

(** [self.dict(exclude_none=True)] *)
Definition dict (x : t) : pydict :=
  entry "name" (VStr (name x))
  ++ opt_entry "quantity" number_value (quantity x)
  ++ opt_entry "unit" VStr (unit x)
  ++ opt_entry "display_text" VStr (display_text x).

End LineItem.

(** [class ShoppingListRequest(BaseModel)] *)
Module ShoppingListRequest.

Record t : Type := mk {
  title                : string;
  line_items           : list LineItem.t;
  image_url            : option string;          (* = None *)
  instructions         : option (list string);   (* = None *)
  partner_linkback_url : option string           (* = None *)
}.

Record args : Type := mk_args {
  a_title                : arg string;
  a_line_items           : arg (list LineItem.args);
  a_image_url            : arg string;
  a_instructions         : arg (list string);
  a_partner_linkback_url : arg string
}.

Definition validate (a : args) : result t :=
  (ti <- required "title" (a_title a) ;;
   raw <- required "line_items" (a_line_items a) ;;
   items <- match validate_items LineItem.validate 0 raw with
            | inl (ValidationError loc why) =>
                inl (ValidationError (Field "line_items" :: loc) why)
            | r => r
            end ;;
   inr {| title := ti;
          line_items := items;
          image_url := optional None (a_image_url a);
          instructions := optional None (a_instructions a);
          partner_linkback_url := optional None (a_partner_linkback_url a) |})%result.

(** The names of the fields the caller supplied, null included (what
    pydantic records as the fields set of the model). *)
Definition fields_set (a : args) : list string :=
  (if is_set (a_title a) then ["title"] else [])
  ++ (if is_set (a_line_items a) then ["line_items"] else [])
  ++ (if is_set (a_image_url a) then ["image_url"] else [])
  ++ (if is_set (a_instructions a) then ["instructions"] else [])
  ++ (if is_set (a_partner_linkback_url a) then ["partner_linkback_url"] else []).

(** [self.dict(exclude_none=True)] *)
Definition dict (x : t) : pydict :=
  entry "title" (VStr (title x))
  ++ entry "line_items" (VList (map (fun i => VDict (LineItem.dict i)) (line_items x)))
  ++ opt_entry "image_url" VStr (image_url x)
  ++ opt_entry "instructions" str_list_value (instructions x)
  ++ opt_entry "partner_linkback_url" VStr (partner_linkback_url x).

End ShoppingListRequest.

(** [class Ingredient(BaseModel)] *)
Module Ingredient.

Record t : Type := mk {
  name         : string;
  display_text : option string;       (* = None *)
  quantity     : option spec_float;   (* = None *)
  unit         : option string        (* = None *)
}.

Record args : Type := mk_args {
  a_name         : arg string;
  a_display_text : arg string;
  a_quantity     : arg spec_float;
  a_unit         : arg string
}.

Definition validate (a : args) : result t :=
  (n <- required "name" (a_name a) ;;
   inr {| name := n;
          display_text := optional None (a_display_text a);
          quantity := optional None (a_quantity a);
          unit := optional None (a_unit a) |})%result.

(** [self.dict(exclude_none=True)] *)
Definition dict (x : t) : pydict :=
  entry "name" (VStr (name x))
  ++ opt_entry "display_text" VStr (display_text x)
  ++ opt_entry "quantity" VFloat (quantity x)
  ++ opt_entry "unit" VStr (unit x).

End Ingredient.

(** [class RecipeRequest(BaseModel)] *)
Module RecipeRequest.

Record t : Type := mk {
  title                : string;
  ingredients          : list Ingredient.t;
  image_url            : option string;          (* = None *)
  author               : option string;          (* = None *)
  servings             : option Z;               (* = None *)
  cooking_time         : option Z;               (* = None *)
  instructions         : option (list string);   (* = None *)
  partner_linkback_url : option string;          (* = None *)
  enable_pantry_items  : option bool             (* = False *)
}.

Record args : Type := mk_args {
  a_title                : arg string;
  a_ingredients          : arg (list Ingredient.args);
  a_image_url            : arg string;
  a_author               : arg string;
  a_servings             : arg Z;
  a_cooking_time         : arg Z;
  a_instructions         : arg (list string);
  a_partner_linkback_url : arg string;
  a_enable_pantry_items  : arg bool
}.

Definition validate (a : args) : result t :=
  (ti <- required "title" (a_title a) ;;
   raw <- required "ingredients" (a_ingredients a) ;;
   items <- match validate_items Ingredient.validate 0 raw with
            | inl (ValidationError loc why) =>
                inl (ValidationError (Field "ingredients" :: loc) why)
            | r => r
            end ;;
   inr {| title := ti;
          ingredients := items;
          image_url := optional None (a_image_url a);
          author := optional None (a_author a);
          servings := optional None (a_servings a);
          cooking_time := optional None (a_cooking_time a);
          instructions := optional None (a_instructions a);
          partner_linkback_url := optional None (a_partner_linkback_url a);
          enable_pantry_items := optional (Some false) (a_enable_pantry_items a) |})%result.

(** [self.dict(exclude_none=True)] *)
Definition dict (x : t) : pydict :=
  entry "title" (VStr (title x))
  ++ entry "ingredients" (VList (map (fun i => VDict (Ingredient.dict i)) (ingredients x)))
  ++ opt_entry "image_url" VStr (image_url x)
  ++ opt_entry "author" VStr (author x)
  ++ opt_entry "servings" VInt (servings x)
  ++ opt_entry "cooking_time" VInt (cooking_time x)
  ++ opt_entry "instructions" str_list_value (instructions x)
  ++ opt_entry "partner_linkback_url" VStr (partner_linkback_url x)
  ++ opt_entry "enable_pantry_items" VBool (enable_pantry_items x).

End RecipeRequest.

(** ** Process configuration (main.py, lines 9-12) *)

Record Config : Type := mkConfig {
  API_KEY_DEV : option string;
  API_KEY     : option string;
  IS_PROD     : bool
}.

(** [str.lower] on the letters that matter for the comparison with
    ["true"]: no character outside A-Z lowercases to one of t, r, u, e. *)
Definition lower_ascii (c : ascii) : ascii :=
  let n := nat_of_ascii c in
  if (65 <=? n)%nat && (n <=? 90)%nat then ascii_of_nat (n + 32) else c.

Fixpoint lower (s : string) : string :=
  match s with
  | EmptyString => EmptyString
  | String c s' => String (lower_ascii c) (lower s')
  end.

(** [os.getenv(key, default)] over the process environment. *)
Definition getenv (environ : string -> option string) (key default : string) : string :=
  match environ key with
  | Some v => v
  | None => default
  end.

Definition load_config (environ : string -> option string) : Config :=
  {| API_KEY_DEV := environ "INSTACART_API_KEY_DEV";
     API_KEY := environ "INSTACART_API_KEY";
     IS_PROD := String.eqb (lower (getenv environ "IS_PROD" "")) "true" |}.

(** How an f-string renders a credential: [os.getenv] gives [None] for a
    variable that is not defined, and [f"{None}"] is the text [None]. *)
Definition format_value (o : option string) : string :=
  match o with
  | Some s => s
  | None => "None"
  end.

(** A Python [float] with an integral value, as its binary64 datum. *)
Definition float_of_Z (z : Z) : spec_float := binary_normalize 53 1024 z 0 false.

(** The literal [30.0]. *)
Definition float_30 : spec_float := float_of_Z 30.

(** ** What a request can carry

    [client.post] builds the request before anything is sent.  The header
    values are encoded as ASCII, and the [json=] body is serialised with
    NaN and the infinities refused and with Python's limit on the digits
    of an integer; either step can raise, and then nothing is sent.  When
    the request is about to be written on the connection, the HTTP/1.1
    layer checks the header values once more and refuses an illegal one
    with a protocol error, again before anything is sent. *)

(** A character below 128. *)
Definition ascii_7bit (c : ascii) : bool :=
  match c with
  | Ascii _ _ _ _ _ _ _ b7 => negb b7
  end.

Fixpoint is_ascii (s : string) : bool :=
  match s with
  | EmptyString => true
  | String c s' => ascii_7bit c && is_ascii s'
  end.

(** A space or a tab. *)
Definition is_blank (c : ascii) : bool :=
  let n := nat_of_ascii c in (n =? 32)%nat || (n =? 9)%nat.

(** NUL, line feed, vertical tab, form feed or carriage return. *)
Definition is_break (c : ascii) : bool :=
  let n := nat_of_ascii c in
  (n =? 0)%nat || ((10 <=? n)%nat && (n <=? 13)%nat).

Fixpoint has_break (s : string) : bool :=
  match s with
  | EmptyString => false
  | String c s' => is_break c || has_break s'
  end.

Fixpoint last_char (c : ascii) (s : string) : ascii :=
  match s with
  | EmptyString => c
  | String c' s' => last_char c' s'
  end.

(** A header value the HTTP/1.1 layer accepts: empty, or without NUL and
    line breaks and neither starting nor ending with a blank. *)
Definition legal_header_value (s : string) : bool :=
  match s with
  | EmptyString => true
  | String c s' =>
      negb (is_blank c) && negb (is_blank (last_char c s')) && negb (has_break s)
  end.

(** The transport errors raised while the connection is being set up. *)
Definition before_connected (e : transport_error) : bool :=
  match e with
  | ConnectError | ConnectTimeout | PoolTimeout => true
  | _ => false
  end.

(** What a request with an illegal header ends in: the failure to connect
    when there is one, the protocol error otherwise. *)
Definition refused (answer : transport_error + Response) : transport_error :=
  match answer with
  | inl e => if before_connected e then e else LocalProtocolError
  | inr _ => LocalProtocolError
  end.

(** The number of decimal digits of an integer, sign apart. *)
Definition decimal_digits (z : Z) : nat :=
  Decimal.nb_digits (N.to_uint (Z.abs_N z)).

(** Python's default limit on the digits of an integer turned into text. *)
Definition int_max_str_digits : nat := 4300.

Definition is_finite (f : spec_float) : bool :=
  match f with
  | S754_nan | S754_infinity _ => false
  | _ => true
  end.

(** Can the value be serialised as the JSON body of a request? *)
Fixpoint json_encodable (v : value) : bool :=
  match v with
  | VInt z => (decimal_digits z <=? int_max_str_digits)%nat
  | VFloat f => is_finite f
  | VList l => forallb json_encodable l
  | VDict d => forallb (fun kv => json_encodable (snd kv)) d
  | _ => true
  end.

(** ** The gateway (main.py, lines 100-117)

    A call runs against the upstream service and leaves a trace: the list
    of the requests it has issued, in order.  The service answers a
    request, given the ones before it, with a response or with a transport
    failure. *)

Definition Network : Type := list Request -> Request -> transport_error + Response.

Definition IO (A : Type) : Type := list Request -> list Request * result A.

Definition ret {A} (a : A) : IO A := fun log => (log, inr a).

Definition raise {A} (e : exn) : IO A := fun log => (log, inl e).

Definition bind {A B} (m : IO A) (k : A -> IO B) : IO B :=
  fun log =>
    match m log with
    | (log', inl e) => (log', inl e)
    | (log', inr a) => k a log'
    end.

Declare Scope io_scope.
Delimit Scope io_scope with io.
Notation "x <- m ;; k" := (bind m (fun x => k))
  (at level 61, m at next level, right associativity) : io_scope.
Notation "m ;; k" := (bind m (fun _ => k))
  (at level 61, right associativity) : io_scope.

(** [response.is_success]: a 2xx status.  [raise_for_status] raises for
    every other status. *)
Definition is_success (r : Response) : bool :=
  (200 <=? status_code r)%Z && (status_code r <=? 299)%Z.

(** [response.raise_for_status()] *)
Definition raise_for_status (r : Response) : IO unit :=
  if is_success r then ret tt else raise (HTTPStatusError r).

(** [response.json()] *)
Definition response_json (r : Response) : IO value :=
  match decoded r with
  | inr v => ret v
  | inl f => raise (decode_exn f)
  end.

(** [v[key]] for a string key: only a dict can be indexed that way. *)
Definition getitem (v : value) (key : string) : IO value :=
  match v with
  | VDict d =>
      match dict_get d key with
      | Some x => ret x
      | None => raise (KeyError key)
      end
  | _ => raise TypeError
  end.

Section Gateway.

Variable cfg : Config.
Variable net : Network.

(** [await client.post(url, json=..., headers=..., timeout=...)] on the
    client that [async with httpx.AsyncClient()] opens for this call alone.
    The request is built first: a header that is not ASCII raises
    [UnicodeEncodeError], then a body that cannot be serialised raises
    [ValueError].  A request with an illegal header value is refused when
    it is to be written.  In these three cases the trace stays as it was.
    Otherwise the request joins the trace and the service's answer comes
    back, a transport failure as the exception it is. *)
Definition post (u : string) (j : value) (h : list (string * string))
           (t : spec_float) : IO Response :=
  fun log =>
    if negb (forallb (fun kv => is_ascii (fst kv) && is_ascii (snd kv)) h) then
      (log, inl UnicodeEncodeError)
    else if negb (json_encodable j) then
      (log, inl ValueError)
    else
      let q := {| method := "POST"; url := u; json := j; headers := h; timeout := t |} in
      if negb (forallb (fun kv => legal_header_value (snd kv)) h) then
        (log, inl (TransportError (refused (net log q))))
      else
        (log ++ [q],
         match net log q with
         | inl e => inl (TransportError e)
         | inr r => inr r
         end).

Definition _call_instacart_api (endpoint : string) (data : pydict) : IO value :=
  (response <-
     (if IS_PROD cfg then
        post ("https://connect.instacart.com/idp/v1/" ++ endpoint)%string
             (VDict data)
             [("Authorization", ("Bearer " ++ format_value (API_KEY cfg))%string)]
             float_30
      else
        post ("https://connect.dev.instacart.tools/idp/v1/" ++ endpoint)%string
             (VDict data)
             [("Authorization", ("Bearer " ++ format_value (API_KEY_DEV cfg))%string)]
             float_30) ;;
   raise_for_status response ;;
   body <- response_json response ;;
   getitem body "products_link_url")%io.

(** The [data] of [create_shopping_list] (lines 65-68). *)
Definition shopping_list_data (request : ShoppingListRequest.t) : pydict :=
  dict_set (ShoppingListRequest.dict request) "link_type" (VStr "shopping_list").

Definition create_shopping_list (request : ShoppingListRequest.t) : IO value :=
  let data := shopping_list_data request in
  _call_instacart_api "products/products_link" data.

Definition create_recipe (request : RecipeRequest.t) : IO value :=
  _call_instacart_api "products/recipe" (RecipeRequest.dict request).

End Gateway.

(** The requests a call adds to the trace, and the payloads they carry. *)
Definition issued {A} (m : IO A) (log : list Request) : list Request :=
  skipn (length log) (fst (m log)).

Definition outcome {A} (m : IO A) (log : list Request) : result A := snd (m log).

(** The request the gateway is expected to build for an endpoint and a
    payload, written from the two base URLs of the upstream service. *)
Definition base_url (prod : bool) : string :=
  if prod then "https://connect.instacart.com"
  else "https://connect.dev.instacart.tools".

Definition credential (cfg : Config) : option string :=
  if IS_PROD cfg then API_KEY cfg else API_KEY_DEV cfg.

Definition gateway_request (cfg : Config) (endpoint : string) (data : pydict) : Request :=
  {| method := "POST";
     url := (base_url (IS_PROD cfg) ++ "/idp/v1/" ++ endpoint)%string;
     json := VDict data;
     headers := [("Authorization", ("Bearer " ++ format_value (credential cfg))%string)];
     timeout := float_30 |}.

(** What the call makes of the service's answer to its one request. *)
Definition unwrap (answer : transport_error + Response) : result value :=
  match answer with
  | inl e => inl (TransportError e)
  | inr r =>
      if is_success r then
        match decoded r with
        | inl f => inl (decode_exn f)
        | inr (VDict d) =>
            match dict_get d "products_link_url" with
            | Some x => inr x
            | None => inl (KeyError "products_link_url")
            end
        | inr _ => inl TypeError
        end
      else inl (HTTPStatusError r)
  end.

(** Is the selected credential ASCII? *)
Definition ascii_credential (cfg : Config) : bool :=
  is_ascii (format_value (credential cfg)).

(** Is the Authorization value made of the selected credential legal? *)
Definition legal_credential (cfg : Config) : bool :=
  legal_header_value ("Bearer " ++ format_value (credential cfg))%string.

(** A credential a request can be sent with: ASCII, and legal in the
    Authorization header. *)
Definition usable_credential (cfg : Config) : bool :=
  ascii_credential cfg && legal_credential cfg.

(** A tool sends the payload [data]: every request it issues carries
    [data], and it issues exactly one such request whenever the credential
    is usable and [data] can be serialised. *)
Definition sends {A} (tool : Config -> Network -> IO A) (data : pydict) : Prop :=
  forall (cfg : Config) (net : Network) (log : list Request),
    (forall q, In q (issued (tool cfg net) log) -> json q = VDict data)
    /\ (usable_credential cfg = true ->
        json_encodable (VDict data) = true ->
        map json (issued (tool cfg net) log) = [VDict data]).

(** ** Vocabulary of the payload properties *)

(** What the payload [d] holds under key [k] for what the caller did with
    the field: the value passed, nothing for null, and for a field left
    out the declared default, if it has one that is not [None]. *)
Definition carries {A} (d : pydict) (k : string) (to_value : A -> value)
           (default : option value) (a : arg A) : Prop :=
  dict_get d k =
  match a with
  | Val x => Some (to_value x)
  | Null => None
  | Unset => default
  end.

(** A field the caller set to null has no entry in [d]. *)
Definition null_omitted {A} (d : pydict) (k : string) (a : arg A) : Prop :=
  a = Null -> dict_get d k = None.

(** One line item of the caller and its entry in the payload. *)
Definition line_item_sent (a : LineItem.args) (v : value) : Prop :=
  exists d,
    v = VDict d
    /\ carries d "name" VStr None (LineItem.a_name a)
    /\ carries d "quantity" VFloat (Some (VInt 1)) (LineItem.a_quantity a)
    /\ carries d "unit" VStr (Some (VStr "each")) (LineItem.a_unit a)
    /\ carries d "display_text" VStr None (LineItem.a_display_text a).

(** One ingredient of the caller and its entry in the payload. *)
Definition ingredient_sent (a : Ingredient.args) (v : value) : Prop :=
  exists d,
    v = VDict d
    /\ carries d "name" VStr None (Ingredient.a_name a)
    /\ carries d "display_text" VStr None (Ingredient.a_display_text a)
    /\ carries d "quantity" VFloat None (Ingredient.a_quantity a)
    /\ carries d "unit" VStr None (Ingredient.a_unit a).

(** Is [k] a key of some dict inside a value, at any depth? *)
Fixpoint mentions_key (k : string) (v : value) : bool :=
  match v with
  | VList l => existsb (mentions_key k) l
  | VDict d => existsb (fun kv => String.eqb (fst kv) k || mentions_key k (snd kv)) d
  | _ => false
  end.

(** A successful body without the field the gateway reads. *)
Definition lacks_field (body : value) (k : string) : Prop :=
  match body with
  | VDict d => dict_get d k = None
  | _ => True
  end.

(** ** Sample inputs *)

(** [{title: "Weekend BBQ", line_items: [{name: "Burger Buns"}]}] *)
Definition weekend_bbq : ShoppingListRequest.args :=
  {| ShoppingListRequest.a_title := Val "Weekend BBQ";
     ShoppingListRequest.a_line_items :=
       Val [ {| LineItem.a_name := Val "Burger Buns";
                LineItem.a_quantity := Unset;
                LineItem.a_unit := Unset;
                LineItem.a_display_text := Unset |} ];
     ShoppingListRequest.a_image_url := Unset;
     ShoppingListRequest.a_instructions := Unset;
     ShoppingListRequest.a_partner_linkback_url := Unset |}.

(** [{title: "Snacks", line_items: [{name: "Chips", quantity: null,
    unit: null}], image_url: null}] *)
Definition snacks_with_nulls : ShoppingListRequest.args :=
  {| ShoppingListRequest.a_title := Val "Snacks";
     ShoppingListRequest.a_line_items :=
       Val [ {| LineItem.a_name := Val "Chips";
                LineItem.a_quantity := Null;
                LineItem.a_unit := Null;
                LineItem.a_display_text := Unset |} ];
     ShoppingListRequest.a_image_url := Null;
     ShoppingListRequest.a_instructions := Unset;
     ShoppingListRequest.a_partner_linkback_url := Unset |}.

(** [{title: "Chili", ingredients: [{name: "Beans", quantity: 2,
    unit: "cans"}], author: null}] *)
Definition chili : RecipeRequest.args :=
  {| RecipeRequest.a_title := Val "Chili";
     RecipeRequest.a_ingredients :=
       Val [ {| Ingredient.a_name := Val "Beans";
                Ingredient.a_display_text := Unset;
                Ingredient.a_quantity := Val (float_of_Z 2);
                Ingredient.a_unit := Val "cans" |} ];
     RecipeRequest.a_image_url := Unset;
     RecipeRequest.a_author := Null;
     RecipeRequest.a_servings := Unset;
     RecipeRequest.a_cooking_time := Unset;
     RecipeRequest.a_instructions := Unset;
     RecipeRequest.a_partner_linkback_url := Unset;
     RecipeRequest.a_enable_pantry_items := Unset |}.

Definition sample_config : Config :=
  {| API_KEY_DEV := Some "dev-key"; API_KEY := Some "prod-key"; IS_PROD := false |}.

(** A service that gives the same answer to every request. *)
Definition answering (r : Response) : Network := fun _ _ => inr r.

(** A service that never answers in time. *)
Definition timing_out : Network := fun _ _ => inl ReadTimeout.

Definition dquote : string := String (ascii_of_nat 34) EmptyString.

(** Status 200 with the body [{"products_link_url": "https://instacart.com/x"}]. *)
Definition ok_response : Response :=
  {| status_code := 200;
     text := ("{" ++ dquote ++ "products_link_url" ++ dquote ++ ": "
              ++ dquote ++ "https://instacart.com/x" ++ dquote ++ "}")%string;
     decoded := inr (VDict [("products_link_url", VStr "https://instacart.com/x")]) |}.

(** Status 422 with the body [{"error": "invalid"}]. *)
Definition unprocessable_response : Response :=
  {| status_code := 422;
     text := ("{" ++ dquote ++ "error" ++ dquote ++ ": "
              ++ dquote ++ "invalid" ++ dquote ++ "}")%string;
     decoded := inr (VDict [("error", VStr "invalid")]) |}.

(** Status 200 with the body [{}]. *)
Definition empty_response : Response :=
  {| status_code := 200; text := "{}"; decoded := inr (VDict []) |}.

(** A test on a field that holds for [None]. *)
Definition option_all {A} (p : A -> bool) (o : option A) : bool :=
  match o with
  | Some a => p a
  | None => true
  end.

(** An integer Python can turn into text. *)
Definition int_encodable (z : Z) : bool :=
  (decimal_digits z <=? int_max_str_digits)%nat.

(** The key a field contributes to a dump: none when its value is [None]. *)
Definition key_of {A} (k : string) (o : option A) : list string :=
  match o with
  | Some _ => [k]
  | None => []
  end.

(** Status 201 with the body [{"id": 7, "products_link_url": null}]. *)
Definition created_null_response : Response :=
  {| status_code := 201;
     text := ("{" ++ dquote ++ "id" ++ dquote ++ ": 7, "
              ++ dquote ++ "products_link_url" ++ dquote ++ ": null}")%string;
     decoded := inr (VDict [("id", VInt 7); ("products_link_url", VNone)]) |}.

(** [{title: "Soup", ingredients: [{name: "Salt", quantity: NaN}]}] *)
Definition soup_with_nan : RecipeRequest.args :=
  {| RecipeRequest.a_title := Val "Soup";
     RecipeRequest.a_ingredients :=
       Val [ {| Ingredient.a_name := Val "Salt";
                Ingredient.a_display_text := Unset;
                Ingredient.a_quantity := Val S754_nan;
                Ingredient.a_unit := Unset |} ];
     RecipeRequest.a_image_url := Unset;
     RecipeRequest.a_author := Unset;
     RecipeRequest.a_servings := Unset;
     RecipeRequest.a_cooking_time := Unset;
     RecipeRequest.a_instructions := Unset;
     RecipeRequest.a_partner_linkback_url := Unset;
     RecipeRequest.a_enable_pantry_items := Unset |}.

(** A development credential that is defined but empty: the header value
    then ends with the blank after Bearer. *)
Definition empty_key_config : Config :=
  {| API_KEY_DEV := Some ""; API_KEY := None; IS_PROD := false |}.

(** A development credential with a character outside ASCII (the two
    bytes 195, 169 of an accented e). *)
Definition accented_config : Config :=
  {| API_KEY_DEV := Some (String "c" (String "l" (String (ascii_of_nat 195)
                           (String (ascii_of_nat 169) EmptyString))));
     API_KEY := None;
     IS_PROD := false |}.

(** An environment that turns production on and defines no credential. *)
Definition production_without_key : string -> option string :=
  fun k => if String.eqb k "IS_PROD" then Some "TRUE" else None.

(** ** The gateway's single exchange *)

Lemma skipn_length_app {A} (l l' : list A) : skipn (length l) (l ++ l') = l'.
Proof. induction l as [|x l IH]; simpl; auto. Qed.

Lemma skipn_length_nil {A} (l : list A) : skipn (length l) l = [].
Proof. induction l as [|x l IH]; simpl; auto. Qed.

Lemma call_run cfg net endpoint data log :
  _call_instacart_api cfg net endpoint data log =
  if ascii_credential cfg then
    if json_encodable (VDict data) then
      if legal_credential cfg then
        (log ++ [gateway_request cfg endpoint data],
         unwrap (net log (gateway_request cfg endpoint data)))
      else
        (log, inl (TransportError (refused (net log (gateway_request cfg endpoint data)))))
    else (log, inl ValueError)
  else (log, inl UnicodeEncodeError).
Proof.
  assert (Hrun : forall u k,
             bind (post net u (VDict data)
                        [("Authorization", ("Bearer " ++ format_value k)%string)]
                        float_30)
                  (fun response =>
                     bind (raise_for_status response)
                          (fun _ => bind (response_json response)
                                         (fun body => getitem body "products_link_url")))
                  log =
             let q := {| method := "POST"; url := u; json := VDict data;
                         headers := [("Authorization",
                                      ("Bearer " ++ format_value k)%string)];
                         timeout := float_30 |} in
             if is_ascii (format_value k) then
               if json_encodable (VDict data) then
                 if legal_header_value ("Bearer " ++ format_value k)%string then
                   (log ++ [q], unwrap (net log q))
                 else (log, inl (TransportError (refused (net log q))))
               else (log, inl ValueError)
             else (log, inl UnicodeEncodeError)).
  { intros u k. unfold bind at 1. unfold post. cbn [forallb fst snd].
    change (is_ascii "Authorization") with true.
    change (is_ascii (String.append "Bearer " (format_value k)))
      with (is_ascii (format_value k)).
    destruct (is_ascii (format_value k)); cbn [negb andb]; [ | reflexivity].
    destruct (json_encodable (VDict data)); cbn [negb]; [ | reflexivity].
    cbv zeta. rewrite andb_true_r.
    destruct (legal_header_value ("Bearer " ++ format_value k)%string);
      cbn [negb]; [ | reflexivity].
    match goal with |- context [net log ?q] => destruct (net log q) as [e|r] end;
      [reflexivity | ].
    unfold bind, raise_for_status, unwrap.
    destruct (is_success r); [ | reflexivity].
    unfold ret, response_json.
    destruct (decoded r) as [f|body]; [reflexivity | ].
    unfold ret, getitem.
    destruct body as [| | | | | |d]; try reflexivity.
    destruct (dict_get d "products_link_url"); reflexivity. }
  unfold _call_instacart_api, gateway_request, base_url, ascii_credential,
    legal_credential, credential.
  destruct (IS_PROD cfg); apply Hrun.
Qed.

Lemma usable_split cfg :
  usable_credential cfg = true ->
  ascii_credential cfg = true /\ legal_credential cfg = true.
Proof. unfold usable_credential. apply andb_true_iff. Qed.

Lemma call_issued cfg net endpoint data log :
  usable_credential cfg = true ->
  json_encodable (VDict data) = true ->
  issued (_call_instacart_api cfg net endpoint data) log =
  [gateway_request cfg endpoint data].
Proof.
  intros Husable Hjson. destruct (usable_split cfg Husable) as [Hascii Hlegal].
  unfold issued. rewrite call_run, Hascii, Hjson, Hlegal.
  cbn [fst]. apply skipn_length_app.
Qed.

Lemma call_outcome cfg net endpoint data log :
  usable_credential cfg = true ->
  json_encodable (VDict data) = true ->
  outcome (_call_instacart_api cfg net endpoint data) log =
  unwrap (net log (gateway_request cfg endpoint data)).
Proof.
  intros Husable Hjson. destruct (usable_split cfg Husable) as [Hascii Hlegal].
  unfold outcome. rewrite call_run, Hascii, Hjson, Hlegal. reflexivity.
Qed.

Lemma call_not_ascii cfg net endpoint data log :
  ascii_credential cfg = false ->
  _call_instacart_api cfg net endpoint data log = (log, inl UnicodeEncodeError).
Proof. intros Hascii. rewrite call_run, Hascii. reflexivity. Qed.

Lemma call_not_encodable cfg net endpoint data log :
  ascii_credential cfg = true ->
  json_encodable (VDict data) = false ->
  _call_instacart_api cfg net endpoint data log = (log, inl ValueError).
Proof. intros Hascii Hjson. rewrite call_run, Hascii, Hjson. reflexivity. Qed.

Lemma call_not_legal cfg net endpoint data log :
  ascii_credential cfg = true ->
  json_encodable (VDict data) = true ->
  legal_credential cfg = false ->
  _call_instacart_api cfg net endpoint data log =
  (log, inl (TransportError (refused (net log (gateway_request cfg endpoint data))))).
Proof.
  intros Hascii Hjson Hlegal. rewrite call_run, Hascii, Hjson, Hlegal. reflexivity.
Qed.

Lemma call_issued_nil cfg net endpoint data log :
  usable_credential cfg && json_encodable (VDict data) = false ->
  issued (_call_instacart_api cfg net endpoint data) log = [].
Proof.
  unfold usable_credential. intros H. unfold issued. rewrite call_run.
  destruct (ascii_credential cfg); [ | cbn [fst]; apply skipn_length_nil].
  destruct (json_encodable (VDict data)); [ | cbn [fst]; apply skipn_length_nil].
  destruct (legal_credential cfg); [discriminate H | cbn [fst]; apply skipn_length_nil].
Qed.

Lemma call_issued_any cfg net endpoint data log q :
  In q (issued (_call_instacart_api cfg net endpoint data) log) ->
  q = gateway_request cfg endpoint data.
Proof.
  destruct (usable_credential cfg && json_encodable (VDict data)) eqn:Hsend.
  - apply andb_true_iff in Hsend. destruct Hsend as [Husable Hjson].
    rewrite call_issued by assumption. intros [<-|[]]. reflexivity.
  - rewrite call_issued_nil by assumption. intros [].
Qed.

Lemma call_sends cfg net endpoint data log :
  (forall q, In q (issued (_call_instacart_api cfg net endpoint data) log) ->
             json q = VDict data)
  /\ (usable_credential cfg = true ->
      json_encodable (VDict data) = true ->
      map json (issued (_call_instacart_api cfg net endpoint data) log) = [VDict data]).
Proof.
  split.
  - intros q Hq. rewrite (call_issued_any _ _ _ _ _ _ Hq). reflexivity.
  - intros Husable Hjson. rewrite call_issued by assumption. reflexivity.
Qed.

Lemma is_success_200 r : status_code r = 200%Z -> is_success r = true.
Proof. unfold is_success. intros ->. reflexivity. Qed.

Lemma is_success_failure r :
  (400 <= status_code r <= 599)%Z -> is_success r = false.
Proof.
  unfold is_success. intros H.
  apply andb_false_iff. right. apply Z.leb_gt. lia.
Qed.

(** ** Properties of the gateway *)

(** C2: with the production flag on, a request of a gateway call can only
    be the POST to https://connect.instacart.com/idp/v1/<endpoint> with
    the production credential after [Bearer]; with the flag off, the POST
    to https://connect.dev.instacart.tools/idp/v1/<endpoint> with the
    development credential.  That one request is issued whenever the
    payload can be serialised and the selected credential is usable
    (ASCII, and legal in the header).  A process whose environment does
    not define IS_PROD has the flag off. *)
Theorem gateway_environment :
  forall (key key_dev : option string) (net : Network) (endpoint : string)
         (data : pydict) (log : list Request),
    let production := mkConfig key_dev key true in
    let development := mkConfig key_dev key false in
    let production_post :=
      {| method := "POST";
         url := "https://connect.instacart.com/idp/v1/" ++ endpoint;
         json := VDict data;
         headers := [("Authorization", "Bearer " ++ format_value key)];
         timeout := float_of_Z 30 |}%string in
    let development_post :=
      {| method := "POST";
         url := "https://connect.dev.instacart.tools/idp/v1/" ++ endpoint;
         json := VDict data;
         headers := [("Authorization", "Bearer " ++ format_value key_dev)];
         timeout := float_of_Z 30 |}%string in
    (forall q, In q (issued (_call_instacart_api production net endpoint data) log) ->
               q = production_post)
    /\ (forall q, In q (issued (_call_instacart_api development net endpoint data) log) ->
                  q = development_post)
    /\ (json_encodable (VDict data) = true ->
        usable_credential production = true ->
        issued (_call_instacart_api production net endpoint data) log = [production_post])
    /\ (json_encodable (VDict data) = true ->
        usable_credential development = true ->
        issued (_call_instacart_api development net endpoint data) log = [development_post])
    /\ (forall k : string, format_value (Some k) = k)
    /\ (forall environ : string -> option string,
          API_KEY (load_config environ) = environ "INSTACART_API_KEY"
          /\ API_KEY_DEV (load_config environ) = environ "INSTACART_API_KEY_DEV"
          /\ (environ "IS_PROD" = None -> IS_PROD (load_config environ) = false)).
Proof.
  intros key key_dev net endpoint data log production development
         production_post development_post.
  split; [ | split; [ | split; [ | split; [ | split ] ] ] ].
  - intros q Hq. apply call_issued_any in Hq. exact Hq.
  - intros q Hq. apply call_issued_any in Hq. exact Hq.
  - intros Hjson Husable. apply call_issued; assumption.
  - intros Hjson Husable. apply call_issued; assumption.
  - reflexivity.
  - intros environ. split; [reflexivity | split; [reflexivity | ] ].
    intros Hunset. unfold load_config, getenv. simpl. rewrite Hunset. reflexivity.
Qed.

Lemma gateway_environment_witness :
  issued (_call_instacart_api (mkConfig (Some "dev-key") (Some "prod-key") true)
            timing_out "products/recipe" [("title", VStr "Chili")]) []
  = [ {| method := "POST";
         url := "https://connect.instacart.com/idp/v1/products/recipe";
         json := VDict [("title", VStr "Chili")];
         headers := [("Authorization", "Bearer prod-key")];
         timeout := float_of_Z 30 |} ]
  /\ IS_PROD (load_config (fun _ => None)) = false.
Proof.
  destruct (gateway_environment (Some "prod-key") (Some "dev-key") timing_out
              "products/recipe" [("title", VStr "Chili")] [])
    as (_ & _ & Hprod & _ & _ & Henv).
  split.
  - apply Hprod; reflexivity.
  - apply (Henv (fun _ => None)). reflexivity.
Defined.

(** C3: when the upstream service answers the request of a tool with
    status 200 and the JSON body {"products_link_url": u},
    [create_shopping_list] and [create_recipe] both return exactly the
    string u.  (The service is reached when the credential is usable
    and the payload can be serialised.) *)
Theorem success_returns_url :
  forall (cfg : Config) (net : Network) (log : list Request) (r : Response)
         (u : string) (shopping : ShoppingListRequest.t) (recipe : RecipeRequest.t),
    usable_credential cfg = true ->
    json_encodable (VDict (shopping_list_data shopping)) = true ->
    json_encodable (VDict (RecipeRequest.dict recipe)) = true ->
    (forall q, net log q = inr r) ->
    status_code r = 200%Z ->
    decoded r = inr (VDict [("products_link_url", VStr u)]) ->
    outcome (create_shopping_list cfg net shopping) log = inr (VStr u)
    /\ outcome (create_recipe cfg net recipe) log = inr (VStr u).
Proof.
  intros cfg net log r u shopping recipe Hascii Hs Hr Hnet Hstatus Hbody.
  unfold create_shopping_list, create_recipe.
  rewrite !call_outcome by assumption. rewrite !Hnet. unfold unwrap.
  rewrite (is_success_200 r Hstatus), Hbody. simpl. split; reflexivity.
Qed.

(** C4: when the upstream service answers the request with a 4xx or 5xx
    status, the call fails with the HTTP status error that carries the
    response, so its status code and body; nothing is returned and the one
    request is not repeated.  The same holds for both tools.  (The service
    is reached when the credential is usable and the payload can be
    serialised.) *)
Theorem failure_status_raises :
  forall (cfg : Config) (net : Network) (log : list Request) (r : Response)
         (endpoint : string) (data : pydict)
         (shopping : ShoppingListRequest.t) (recipe : RecipeRequest.t),
    usable_credential cfg = true ->
    json_encodable (VDict data) = true ->
    json_encodable (VDict (shopping_list_data shopping)) = true ->
    json_encodable (VDict (RecipeRequest.dict recipe)) = true ->
    (forall q, net log q = inr r) ->
    (400 <= status_code r <= 599)%Z ->
    (outcome (_call_instacart_api cfg net endpoint data) log = inl (HTTPStatusError r)
     /\ length (issued (_call_instacart_api cfg net endpoint data) log) = 1%nat)
    /\ (outcome (create_shopping_list cfg net shopping) log = inl (HTTPStatusError r)
        /\ length (issued (create_shopping_list cfg net shopping) log) = 1%nat)
    /\ (outcome (create_recipe cfg net recipe) log = inl (HTTPStatusError r)
        /\ length (issued (create_recipe cfg net recipe) log) = 1%nat).
Proof.
  intros cfg net log r endpoint data shopping recipe Hascii Hd Hs Hr Hnet Hstatus.
  unfold create_shopping_list, create_recipe.
  rewrite !call_outcome, !call_issued by assumption. rewrite !Hnet. unfold unwrap.
  rewrite (is_success_failure r Hstatus). simpl. repeat split.
Qed.

(** C5: when the upstream service answers the request with a success
    status and a JSON body that has no field products_link_url, the call
    fails: with [KeyError] on that key when the body is an object, with
    [TypeError] when it is any other JSON value; it never returns a value.
    (The service is reached when the credential is usable and the payload
    can be serialised.) *)
Theorem missing_url_raises :
  forall (cfg : Config) (net : Network) (log : list Request) (r : Response)
         (body : value) (endpoint : string) (data : pydict),
    usable_credential cfg = true ->
    (forall q, net log q = inr r) ->
    is_success r = true ->
    decoded r = inr body ->
    lacks_field body "products_link_url" ->
    let failure : result value :=
      inl (match body with
           | VDict _ => KeyError "products_link_url"
           | _ => TypeError
           end) in
    (json_encodable (VDict data) = true ->
     outcome (_call_instacart_api cfg net endpoint data) log = failure)
    /\ (forall shopping,
           json_encodable (VDict (shopping_list_data shopping)) = true ->
           outcome (create_shopping_list cfg net shopping) log = failure)
    /\ (forall recipe,
           json_encodable (VDict (RecipeRequest.dict recipe)) = true ->
           outcome (create_recipe cfg net recipe) log = failure).
Proof.
  intros cfg net log r body endpoint data Hascii Hnet Hok Hbody Hlacks failure.
  assert (Hunwrap : unwrap (inr r) = failure).
  { unfold unwrap. rewrite Hok, Hbody. subst failure.
    destruct body as [| | | | | |d]; try reflexivity.
    simpl in Hlacks. rewrite Hlacks. reflexivity. }
  unfold create_shopping_list, create_recipe.
  split; [ | split; intros ? ]; intros Hjson;
    rewrite call_outcome by assumption; rewrite Hnet; exact Hunwrap.
Qed.

(** C8, as the code has it: a gateway call whose payload can be
    serialised and whose selected credential is usable (ASCII, and legal
    in the header) issues exactly one request: a POST whose JSON body is
    the payload, whose only header is Authorization: Bearer followed by
    the credential, and whose timeout is 30 seconds; when that request
    times out, the call fails with the timeout exception and no second
    request is made.  A call whose credential is not ASCII fails with
    [UnicodeEncodeError], one whose payload cannot be serialised fails
    with [ValueError], and one whose header value is illegal fails with a
    transport error, all three without issuing a request.  No call issues
    more than one request. *)
Theorem gateway_single_post :
  forall (cfg : Config) (net : Network) (log : list Request)
         (endpoint : string) (data : pydict),
    (usable_credential cfg = true ->
     json_encodable (VDict data) = true ->
     exists q : Request,
       fst (_call_instacart_api cfg net endpoint data log) = log ++ [q]
       /\ issued (_call_instacart_api cfg net endpoint data) log = [q]
       /\ method q = "POST"
       /\ json q = VDict data
       /\ headers q = [("Authorization", "Bearer " ++ format_value (credential cfg))%string]
       /\ timeout q = float_of_Z 30
       /\ (forall e : transport_error,
             is_timeout e = true ->
             net log q = inl e ->
             outcome (_call_instacart_api cfg net endpoint data) log =
             inl (TransportError e)))
    /\ (ascii_credential cfg = false ->
        _call_instacart_api cfg net endpoint data log = (log, inl UnicodeEncodeError)
        /\ issued (_call_instacart_api cfg net endpoint data) log = [])
    /\ (ascii_credential cfg = true ->
        json_encodable (VDict data) = false ->
        _call_instacart_api cfg net endpoint data log = (log, inl ValueError)
        /\ issued (_call_instacart_api cfg net endpoint data) log = [])
    /\ (ascii_credential cfg = true ->
        json_encodable (VDict data) = true ->
        legal_credential cfg = false ->
        (exists t, _call_instacart_api cfg net endpoint data log =
                   (log, inl (TransportError t)))
        /\ issued (_call_instacart_api cfg net endpoint data) log = [])
    /\ (length (issued (_call_instacart_api cfg net endpoint data) log) <= 1)%nat.
Proof.
  intros cfg net log endpoint data.
  split; [ | split; [ | split; [ | split ] ] ].
  - intros Husable Hjson.
    destruct (usable_split cfg Husable) as [Hascii Hlegal].
    exists (gateway_request cfg endpoint data).
    rewrite call_issued, call_outcome by assumption.
    rewrite call_run, Hascii, Hjson, Hlegal. cbn [fst].
    repeat (split; [reflexivity | ]).
    intros e _ Hnet. rewrite Hnet. reflexivity.
  - intros Hascii. split; [apply call_not_ascii; exact Hascii | ].
    apply call_issued_nil. unfold usable_credential. rewrite Hascii. reflexivity.
  - intros Hascii Hjson. split; [apply call_not_encodable; assumption | ].
    apply call_issued_nil. rewrite Hjson. apply andb_false_r.
  - intros Hascii Hjson Hlegal.
    split; [eexists; apply call_not_legal; assumption | ].
    apply call_issued_nil. unfold usable_credential.
    rewrite Hlegal, andb_false_r. reflexivity.
  - destruct (usable_credential cfg && json_encodable (VDict data)) eqn:Hsend.
    + apply andb_true_iff in Hsend. destruct Hsend as [Husable Hjson].
      rewrite call_issued by assumption. simpl. lia.
    + rewrite call_issued_nil by assumption. simpl. lia.
Qed.

(** The recipe [soup_with_nan] is valid, and the gateway call on its dump
    issues no request at all: it fails with [ValueError] while the request
    is built. *)
Lemma nan_payload_issues_no_request :
  exists request,
    RecipeRequest.validate soup_with_nan = inr request
    /\ issued (_call_instacart_api sample_config (answering ok_response)
                 "products/recipe" (RecipeRequest.dict request)) [] = []
    /\ outcome (_call_instacart_api sample_config (answering ok_response)
                  "products/recipe" (RecipeRequest.dict request)) [] = inl ValueError.
Proof. eexists. split; [reflexivity | split; reflexivity]. Qed.

(** ** Properties of [dict(exclude_none=True)] *)

Lemma validate_items_Forall2 {A B} (validate : A -> result B) :
  forall (l : list A) (i : nat) (items : list B),
    validate_items validate i l = inr items ->
    Forall2 (fun a b => validate a = inr b) l items.
Proof.
  induction l as [|a l IH]; simpl; intros i items H.
  - injection H as <-. constructor.
  - destruct (validate a) as [e|b] eqn:Ha.
    + destruct e; discriminate.
    + destruct (validate_items validate (S i) l) as [e|bs] eqn:Hl; simpl in H.
      * discriminate.
      * injection H as <-. constructor; [assumption | eauto].
Qed.

Lemma Forall2_map_r {A B C} (R : A -> C -> Prop) (f : B -> C) :
  forall (l : list A) (l' : list B),
    Forall2 (fun a b => R a (f b)) l l' -> Forall2 R l (map f l').
Proof. induction 1; simpl; constructor; assumption. Qed.

Lemma Forall2_weaken {A B} (R R' : A -> B -> Prop) :
  (forall a b, R a b -> R' a b) ->
  forall l l', Forall2 R l l' -> Forall2 R' l l'.
Proof. intros HR l l' H. induction H; constructor; auto. Qed.

Lemma line_item_validated (a : LineItem.args) (x : LineItem.t) :
  LineItem.validate a = inr x -> line_item_sent a (VDict (LineItem.dict x)).
Proof.
  destruct a as [n q u t]. unfold LineItem.validate. simpl.
  destruct n as [| |n]; simpl; try discriminate.
  intros H. injection H as <-.
  eexists. split; [reflexivity | ].
  unfold carries, LineItem.dict. simpl.
  destruct q, u, t; simpl; repeat split.
Qed.

Lemma ingredient_validated (a : Ingredient.args) (x : Ingredient.t) :
  Ingredient.validate a = inr x -> ingredient_sent a (VDict (Ingredient.dict x)).
Proof.
  destruct a as [n t q u]. unfold Ingredient.validate. simpl.
  destruct n as [| |n]; simpl; try discriminate.
  intros H. injection H as <-.
  eexists. split; [reflexivity | ].
  unfold carries, Ingredient.dict. simpl.
  destruct t, q, u; simpl; repeat split.
Qed.

Lemma has_none_strings (l : list string) : existsb has_none (map VStr l) = false.
Proof. induction l; simpl; auto. Qed.

Lemma has_none_line_item (x : LineItem.t) : has_none (VDict (LineItem.dict x)) = false.
Proof. destruct x as [n [[z|f]|] [u|] [t|]]; reflexivity. Qed.

Lemma has_none_ingredient (x : Ingredient.t) : has_none (VDict (Ingredient.dict x)) = false.
Proof. destruct x as [n [t|] [q|] [u|]]; reflexivity. Qed.

Lemma has_none_line_items (l : list LineItem.t) :
  existsb has_none (map (fun i => VDict (LineItem.dict i)) l) = false.
Proof.
  induction l as [|x l IH]; [reflexivity | ].
  cbn [map existsb]. rewrite has_none_line_item, IH. reflexivity.
Qed.

Lemma has_none_ingredients (l : list Ingredient.t) :
  existsb has_none (map (fun i => VDict (Ingredient.dict i)) l) = false.
Proof.
  induction l as [|x l IH]; [reflexivity | ].
  cbn [map existsb]. rewrite has_none_ingredient, IH. reflexivity.
Qed.

Lemma shopping_list_sent (request : ShoppingListRequest.t) :
  sends (fun cfg net => create_shopping_list cfg net request)
        (shopping_list_data request).
Proof. intros cfg net log. unfold create_shopping_list. apply call_sends. Qed.

Lemma recipe_sent (request : RecipeRequest.t) :
  sends (fun cfg net => create_recipe cfg net request)
        (RecipeRequest.dict request).
Proof. intros cfg net log. unfold create_recipe. apply call_sends. Qed.

Lemma shopping_list_validated (a : ShoppingListRequest.args) (request : ShoppingListRequest.t) :
  ShoppingListRequest.validate a = inr request ->
  exists t raw items,
    ShoppingListRequest.a_title a = Val t
    /\ ShoppingListRequest.a_line_items a = Val raw
    /\ Forall2 (fun a x => LineItem.validate a = inr x) raw items
    /\ request =
       {| ShoppingListRequest.title := t;
          ShoppingListRequest.line_items := items;
          ShoppingListRequest.image_url := optional None (ShoppingListRequest.a_image_url a);
          ShoppingListRequest.instructions := optional None (ShoppingListRequest.a_instructions a);
          ShoppingListRequest.partner_linkback_url :=
            optional None (ShoppingListRequest.a_partner_linkback_url a) |}.
Proof.
  destruct a as [t l i ins p]. unfold ShoppingListRequest.validate. simpl.
  destruct t as [| |t]; simpl; try discriminate.
  destruct l as [| |raw]; simpl; try discriminate.
  destruct (validate_items LineItem.validate 0 raw) as [e|items] eqn:Hitems.
  - destruct e; discriminate.
  - simpl. intros H. injection H as <-.
    exists t, raw, items. repeat split.
    eapply validate_items_Forall2; eassumption.
Qed.

Lemma recipe_validated (a : RecipeRequest.args) (request : RecipeRequest.t) :
  RecipeRequest.validate a = inr request ->
  exists t raw items,
    RecipeRequest.a_title a = Val t
    /\ RecipeRequest.a_ingredients a = Val raw
    /\ Forall2 (fun a x => Ingredient.validate a = inr x) raw items
    /\ request =
       {| RecipeRequest.title := t;
          RecipeRequest.ingredients := items;
          RecipeRequest.image_url := optional None (RecipeRequest.a_image_url a);
          RecipeRequest.author := optional None (RecipeRequest.a_author a);
          RecipeRequest.servings := optional None (RecipeRequest.a_servings a);
          RecipeRequest.cooking_time := optional None (RecipeRequest.a_cooking_time a);
          RecipeRequest.instructions := optional None (RecipeRequest.a_instructions a);
          RecipeRequest.partner_linkback_url :=
            optional None (RecipeRequest.a_partner_linkback_url a);
          RecipeRequest.enable_pantry_items :=
            optional (Some false) (RecipeRequest.a_enable_pantry_items a) |}.
Proof.
  destruct a as [t l i au s c ins p e]. unfold RecipeRequest.validate. simpl.
  destruct t as [| |t]; simpl; try discriminate.
  destruct l as [| |raw]; simpl; try discriminate.
  destruct (validate_items Ingredient.validate 0 raw) as [err|items] eqn:Hitems.
  - destruct err; discriminate.
  - simpl. intros H. injection H as <-.
    exists t, raw, items. repeat split.
    eapply validate_items_Forall2; eassumption.
Qed.

Lemma carries_null {A} (d : pydict) (k : string) (f : A -> value)
      (default : option value) (a : arg A) :
  carries d k f default a -> null_omitted d k a.
Proof. unfold carries, null_omitted. intros H ->. exact H. Qed.

Lemma shopping_list_fields (a : ShoppingListRequest.args) (request : ShoppingListRequest.t) :
  ShoppingListRequest.validate a = inr request ->
  let data := shopping_list_data request in
  carries data "image_url" VStr None (ShoppingListRequest.a_image_url a)
  /\ carries data "instructions" str_list_value None
             (ShoppingListRequest.a_instructions a)
  /\ carries data "partner_linkback_url" VStr None
             (ShoppingListRequest.a_partner_linkback_url a)
  /\ dict_get data "link_type" = Some (VStr "shopping_list")
  /\ has_none (VDict data) = false.
Proof.
  intros Hvalid data.
  destruct (shopping_list_validated a request Hvalid)
    as (t & raw & items & Ht & Hraw & Hitems & ->).
  subst data. unfold carries, shopping_list_data, ShoppingListRequest.dict.
  destruct a as [ta la i ins p]. simpl.
  destruct i, ins, p; simpl;
    rewrite ?has_none_line_items; unfold str_list_value; simpl;
    rewrite ?has_none_strings; repeat split; reflexivity.
Qed.

Lemma shopping_list_items (a : ShoppingListRequest.args) (request : ShoppingListRequest.t) :
  ShoppingListRequest.validate a = inr request ->
  exists raw items,
    ShoppingListRequest.a_line_items a = Val raw
    /\ Forall2 (fun ai xi => LineItem.validate ai = inr xi) raw items
    /\ dict_get (shopping_list_data request) "line_items" =
       Some (VList (map (fun i => VDict (LineItem.dict i)) items)).
Proof.
  intros Hvalid.
  destruct (shopping_list_validated a request Hvalid)
    as (t & raw & items & Ht & Hraw & Hitems & ->).
  exists raw, items. repeat split; assumption.
Qed.

Lemma recipe_fields (a : RecipeRequest.args) (request : RecipeRequest.t) :
  RecipeRequest.validate a = inr request ->
  let data := RecipeRequest.dict request in
  carries data "image_url" VStr None (RecipeRequest.a_image_url a)
  /\ carries data "author" VStr None (RecipeRequest.a_author a)
  /\ carries data "servings" VInt None (RecipeRequest.a_servings a)
  /\ carries data "cooking_time" VInt None (RecipeRequest.a_cooking_time a)
  /\ carries data "instructions" str_list_value None (RecipeRequest.a_instructions a)
  /\ carries data "partner_linkback_url" VStr None
             (RecipeRequest.a_partner_linkback_url a)
  /\ carries data "enable_pantry_items" VBool (Some (VBool false))
             (RecipeRequest.a_enable_pantry_items a)
  /\ has_none (VDict data) = false.
Proof.
  intros Hvalid data.
  destruct (recipe_validated a request Hvalid)
    as (t & raw & items & Ht & Hraw & Hitems & ->).
  subst data. unfold carries, RecipeRequest.dict.
  destruct a as [ta la i au s c ins p e]. simpl.
  destruct i, au, s, c, ins, p, e; simpl;
    rewrite ?has_none_ingredients; unfold str_list_value; simpl;
    rewrite ?has_none_strings; repeat split; reflexivity.
Qed.

Lemma recipe_items (a : RecipeRequest.args) (request : RecipeRequest.t) :
  RecipeRequest.validate a = inr request ->
  exists raw items,
    RecipeRequest.a_ingredients a = Val raw
    /\ Forall2 (fun ai xi => Ingredient.validate ai = inr xi) raw items
    /\ dict_get (RecipeRequest.dict request) "ingredients" =
       Some (VList (map (fun i => VDict (Ingredient.dict i)) items)).
Proof.
  intros Hvalid.
  destruct (recipe_validated a request Hvalid)
    as (t & raw & items & Ht & Hraw & Hitems & ->).
  exists raw, items. repeat split; assumption.
Qed.

(** ** Properties of the payloads *)

(** C1, as the code has it: for every valid ShoppingListRequest the payload
    sent by [create_shopping_list] holds every field the caller set to a
    value that is not null, with that value; it has no entry for an
    optional field of the request that the caller left out or set to null;
    each line item is sent by the same rule, except that quantity and
    unit left out are sent as their defaults 1 and each; link_type is
    shopping_list; and no null occurs anywhere in the payload.  Every
    request the tool issues carries this payload, and it issues exactly
    one when the credential is usable and the payload can be serialised. *)
Theorem shopping_list_payload :
  forall (a : ShoppingListRequest.args) (request : ShoppingListRequest.t),
    ShoppingListRequest.validate a = inr request ->
    let data := shopping_list_data request in
    sends (fun cfg net => create_shopping_list cfg net request) data
    /\ (exists t, ShoppingListRequest.a_title a = Val t
                  /\ dict_get data "title" = Some (VStr t))
    /\ (exists raw sent, ShoppingListRequest.a_line_items a = Val raw
                         /\ dict_get data "line_items" = Some (VList sent)
                         /\ Forall2 line_item_sent raw sent)
    /\ carries data "image_url" VStr None (ShoppingListRequest.a_image_url a)
    /\ carries data "instructions" str_list_value None
               (ShoppingListRequest.a_instructions a)
    /\ carries data "partner_linkback_url" VStr None
               (ShoppingListRequest.a_partner_linkback_url a)
    /\ dict_get data "link_type" = Some (VStr "shopping_list")
    /\ has_none (VDict data) = false.
Proof.
  intros a request Hvalid data.
  pose proof (shopping_list_fields a request Hvalid) as Hfields.
  destruct (shopping_list_items a request Hvalid) as (raw & items & Hraw & Hitems & Hsent).
  destruct (shopping_list_validated a request Hvalid)
    as (t & raw' & items' & Ht & _ & _ & Hrequest).
  split; [apply shopping_list_sent | ].
  split; [exists t; split; [exact Ht | subst data; rewrite Hrequest; reflexivity] | ].
  split; [ | exact Hfields].
  exists raw, (map (fun i => VDict (LineItem.dict i)) items).
  split; [exact Hraw | split; [exact Hsent | ] ].
  apply Forall2_map_r.
  eapply Forall2_weaken; [ | exact Hitems].
  intros ai xi. apply line_item_validated.
Qed.

Lemma shopping_list_payload_witness :
  exists request,
    ShoppingListRequest.validate snacks_with_nulls = inr request
    /\ dict_get (shopping_list_data request) "image_url" = None
    /\ dict_get (shopping_list_data request) "link_type" = Some (VStr "shopping_list").
Proof.
  eexists. split; [reflexivity | ].
  destruct (shopping_list_payload snacks_with_nulls _ eq_refl)
    as (_ & _ & _ & Himage & _ & _ & Hlink & _).
  split; [exact Himage | exact Hlink].
Defined.

(** The caller of [snacks_with_nulls] set image_url (to null); the request
    is valid, and the payload has no image_url entry. *)
Lemma shopping_list_null_field_not_sent :
  exists request,
    ShoppingListRequest.validate snacks_with_nulls = inr request
    /\ In "image_url" (ShoppingListRequest.fields_set snacks_with_nulls)
    /\ dict_get (shopping_list_data request) "image_url" = None
    /\ shopping_list_data request =
       [("title", VStr "Snacks");
        ("line_items", VList [VDict [("name", VStr "Chips")]]);
        ("link_type", VStr "shopping_list")].
Proof.
  eexists. split; [reflexivity | ].
  split; [simpl; auto | split; reflexivity].
Qed.

(** C6: for the input [weekend_bbq], that is title "Weekend BBQ" and the
    one line item named "Burger Buns", the request is valid and the
    payload [create_shopping_list] builds is exactly title, the line item
    as name, quantity 1 and unit each, and link_type shopping_list: no
    display_text, no null.  With a usable credential that payload is what
    the one request sent carries. *)
Theorem weekend_bbq_payload :
  exists request : ShoppingListRequest.t,
    let payload :=
      [ ("title", VStr "Weekend BBQ");
        ("line_items",
         VList [ VDict [ ("name", VStr "Burger Buns");
                         ("quantity", VInt 1);
                         ("unit", VStr "each") ] ]);
        ("link_type", VStr "shopping_list") ] in
    ShoppingListRequest.validate weekend_bbq = inr request
    /\ shopping_list_data request = payload
    /\ (forall cfg net log,
           usable_credential cfg = true ->
           map json (issued (create_shopping_list cfg net request) log) =
           [VDict payload])
    /\ (forall cfg net log q,
           In q (issued (create_shopping_list cfg net request) log) ->
           json q = VDict payload)
    /\ has_none (VDict payload) = false.
Proof.
  eexists. cbv zeta. split; [reflexivity | ].
  split; [reflexivity | ].
  split; [ | split; [ | reflexivity] ].
  - intros cfg net log Husable.
    match goal with
    | |- context [create_shopping_list cfg net ?request] =>
        exact (proj2 (shopping_list_sent request cfg net log) Husable eq_refl)
    end.
  - intros cfg net log q Hq.
    match goal with
    | _ : context [create_shopping_list cfg net ?request] |- _ =>
        exact (proj1 (shopping_list_sent request cfg net log) q Hq)
    end.
Qed.

Lemma weekend_bbq_payload_witness :
  exists request : ShoppingListRequest.t,
    ShoppingListRequest.validate weekend_bbq = inr request
    /\ map json (issued (create_shopping_list sample_config timing_out request) []) =
       [ VDict [ ("title", VStr "Weekend BBQ");
                 ("line_items",
                  VList [ VDict [ ("name", VStr "Burger Buns");
                                  ("quantity", VInt 1);
                                  ("unit", VStr "each") ] ]);
                 ("link_type", VStr "shopping_list") ] ].
Proof.
  destruct weekend_bbq_payload as (request & Hvalid & _ & Hsent & _).
  exists request. split; [exact Hvalid | ].
  apply Hsent. reflexivity.
Defined.

Lemma mentions_key_strings (k : string) (l : list string) :
  existsb (mentions_key k) (map VStr l) = false.
Proof. induction l; simpl; auto. Qed.

Lemma link_type_not_in_ingredients (l : list Ingredient.t) :
  existsb (mentions_key "link_type") (map (fun i => VDict (Ingredient.dict i)) l) = false.
Proof.
  induction l as [|x l IH]; [reflexivity | ].
  cbn [map existsb]. rewrite IH.
  destruct x as [n [t|] [q|] [u|]]; reflexivity.
Qed.

(** C7: for every RecipeRequest, every request [create_recipe] issues
    carries the dump of the request as its payload, and that payload has
    no link_type key, neither at the top nor inside an ingredient. *)
Theorem recipe_payload_has_no_link_type :
  forall (request : RecipeRequest.t) (cfg : Config) (net : Network)
         (log : list Request),
    (forall q, In q (issued (create_recipe cfg net request) log) ->
               json q = VDict (RecipeRequest.dict request))
    /\ dict_get (RecipeRequest.dict request) "link_type" = None
    /\ ~ In "link_type" (dict_keys (RecipeRequest.dict request))
    /\ mentions_key "link_type" (VDict (RecipeRequest.dict request)) = false.
Proof.
  intros request cfg net log.
  split; [apply (proj1 (recipe_sent request cfg net log)) | ].
  destruct request as [t items [i|] [a|] [s|] [c|] [ins|] [p|] [e|]];
    unfold RecipeRequest.dict, str_list_value; simpl;
    rewrite ?link_type_not_in_ingredients, ?mentions_key_strings;
    (split; [reflexivity | split; [ | reflexivity] ]);
    intros H; repeat (destruct H as [H|H]; [discriminate H | ]); exact H.
Qed.

(** C9: omission follows the value, not whether the caller supplied the
    field.  In every valid request, an optional field that the caller set
    to null has no entry in the payload, in the request itself and in
    each of its line items or ingredients; this includes quantity and unit
    of a line item, whose defaults 1 and each are not put in their place;
    and the payload holds no null.  Every request a tool issues carries
    that payload, and the tool issues exactly one when the credential is
    ASCII and the payload can be serialised. *)
Theorem null_fields_are_omitted :
  (forall (a : LineItem.args) (x : LineItem.t),
      LineItem.validate a = inr x ->
      let d := LineItem.dict x in
      null_omitted d "quantity" (LineItem.a_quantity a)
      /\ null_omitted d "unit" (LineItem.a_unit a)
      /\ null_omitted d "display_text" (LineItem.a_display_text a)
      /\ has_none (VDict d) = false)
  /\ (forall (a : Ingredient.args) (x : Ingredient.t),
         Ingredient.validate a = inr x ->
         let d := Ingredient.dict x in
         null_omitted d "display_text" (Ingredient.a_display_text a)
         /\ null_omitted d "quantity" (Ingredient.a_quantity a)
         /\ null_omitted d "unit" (Ingredient.a_unit a)
         /\ has_none (VDict d) = false)
  /\ (forall (a : ShoppingListRequest.args) (request : ShoppingListRequest.t),
         ShoppingListRequest.validate a = inr request ->
         let data := shopping_list_data request in
         null_omitted data "image_url" (ShoppingListRequest.a_image_url a)
         /\ null_omitted data "instructions" (ShoppingListRequest.a_instructions a)
         /\ null_omitted data "partner_linkback_url"
                        (ShoppingListRequest.a_partner_linkback_url a)
         /\ has_none (VDict data) = false
         /\ (exists raw items,
                ShoppingListRequest.a_line_items a = Val raw
                /\ Forall2 (fun ai xi => LineItem.validate ai = inr xi) raw items
                /\ dict_get data "line_items" =
                   Some (VList (map (fun i => VDict (LineItem.dict i)) items)))
         /\ sends (fun cfg net => create_shopping_list cfg net request) data)
  /\ (forall (a : RecipeRequest.args) (request : RecipeRequest.t),
         RecipeRequest.validate a = inr request ->
         let data := RecipeRequest.dict request in
         null_omitted data "image_url" (RecipeRequest.a_image_url a)
         /\ null_omitted data "author" (RecipeRequest.a_author a)
         /\ null_omitted data "servings" (RecipeRequest.a_servings a)
         /\ null_omitted data "cooking_time" (RecipeRequest.a_cooking_time a)
         /\ null_omitted data "instructions" (RecipeRequest.a_instructions a)
         /\ null_omitted data "partner_linkback_url"
                        (RecipeRequest.a_partner_linkback_url a)
         /\ null_omitted data "enable_pantry_items"
                        (RecipeRequest.a_enable_pantry_items a)
         /\ has_none (VDict data) = false
         /\ (exists raw items,
                RecipeRequest.a_ingredients a = Val raw
                /\ Forall2 (fun ai xi => Ingredient.validate ai = inr xi) raw items
                /\ dict_get data "ingredients" =
                   Some (VList (map (fun i => VDict (Ingredient.dict i)) items)))
         /\ sends (fun cfg net => create_recipe cfg net request) data).
Proof.
  split; [ | split; [ | split ] ].
  - intros a x Hvalid d.
    destruct (line_item_validated a x Hvalid) as (d' & Hd & _ & Hq & Hu & Ht).
    injection Hd as <-. subst d.
    repeat split; eauto using carries_null, has_none_line_item.
  - intros a x Hvalid d.
    destruct (ingredient_validated a x Hvalid) as (d' & Hd & _ & Ht & Hq & Hu).
    injection Hd as <-. subst d.
    repeat split; eauto using carries_null, has_none_ingredient.
  - intros a request Hvalid data.
    destruct (shopping_list_fields a request Hvalid) as (Hi & Hins & Hp & _ & Hnone).
    split; [eapply carries_null; exact Hi | ].
    split; [eapply carries_null; exact Hins | ].
    split; [eapply carries_null; exact Hp | ].
    split; [exact Hnone | ].
    split; [apply shopping_list_items; exact Hvalid | apply shopping_list_sent].
  - intros a request Hvalid data.
    destruct (recipe_fields a request Hvalid)
      as (Hi & Ha & Hs & Hc & Hins & Hp & He & Hnone).
    split; [eapply carries_null; exact Hi | ].
    split; [eapply carries_null; exact Ha | ].
    split; [eapply carries_null; exact Hs | ].
    split; [eapply carries_null; exact Hc | ].
    split; [eapply carries_null; exact Hins | ].
    split; [eapply carries_null; exact Hp | ].
    split; [eapply carries_null; exact He | ].
    split; [exact Hnone | ].
    split; [apply recipe_items; exact Hvalid | apply recipe_sent].
Qed.

Lemma null_fields_are_omitted_witness :
  (exists x,
      LineItem.validate (LineItem.mk_args (Val "Chips") Null Null Unset) = inr x
      /\ dict_get (LineItem.dict x) "quantity" = None
      /\ dict_get (LineItem.dict x) "unit" = None)
  /\ (exists request,
         ShoppingListRequest.validate snacks_with_nulls = inr request
         /\ dict_get (shopping_list_data request) "image_url" = None)
  /\ (exists request,
         RecipeRequest.validate chili = inr request
         /\ dict_get (RecipeRequest.dict request) "author" = None).
Proof.
  destruct null_fields_are_omitted as (Hitem & _ & Hshopping & Hrecipe).
  split; [ | split ].
  - eexists. split; [reflexivity | ].
    destruct (Hitem (LineItem.mk_args (Val "Chips") Null Null Unset) _ eq_refl)
      as (Hq & Hu & _).
    split; [apply Hq | apply Hu]; reflexivity.
  - eexists. split; [reflexivity | ].
    destruct (Hshopping snacks_with_nulls _ eq_refl) as (Hi & _).
    apply Hi. reflexivity.
  - eexists. split; [reflexivity | ].
    destruct (Hrecipe chili _ eq_refl) as (_ & Ha & _).
    apply Ha. reflexivity.
Defined.

(** C10: for every valid RecipeRequest whose caller left
    enable_pantry_items out, the payload of [create_recipe] has the entry
    enable_pantry_items with value false; every request the tool issues
    carries that payload. *)
Theorem pantry_default_is_sent :
  forall (a : RecipeRequest.args) (request : RecipeRequest.t),
    RecipeRequest.validate a = inr request ->
    RecipeRequest.a_enable_pantry_items a = Unset ->
    dict_get (RecipeRequest.dict request) "enable_pantry_items" = Some (VBool false)
    /\ sends (fun cfg net => create_recipe cfg net request)
             (RecipeRequest.dict request).
Proof.
  intros a request Hvalid Hunset.
  destruct (recipe_fields a request Hvalid) as (_ & _ & _ & _ & _ & _ & He & _).
  unfold carries in He. rewrite Hunset in He.
  split; [exact He | apply recipe_sent].
Qed.

Lemma pantry_default_is_sent_witness :
  exists request,
    RecipeRequest.validate chili = inr request
    /\ RecipeRequest.a_enable_pantry_items chili = Unset
    /\ dict_get (RecipeRequest.dict request) "enable_pantry_items" = Some (VBool false).
Proof.
  eexists. split; [reflexivity | split; [reflexivity | ] ].
  apply (pantry_default_is_sent chili _ eq_refl eq_refl).
Defined.

(** ** Runs on the sample inputs *)

Lemma success_returns_url_witness :
  exists (shopping : ShoppingListRequest.t) (recipe : RecipeRequest.t),
    ShoppingListRequest.validate weekend_bbq = inr shopping
    /\ RecipeRequest.validate chili = inr recipe
    /\ outcome (create_shopping_list sample_config (answering ok_response) shopping) [] =
       inr (VStr "https://instacart.com/x")
    /\ outcome (create_recipe sample_config (answering ok_response) recipe) [] =
       inr (VStr "https://instacart.com/x").
Proof.
  eexists. eexists.
  split; [reflexivity | split; [reflexivity | ] ].
  apply (success_returns_url sample_config (answering ok_response) [] ok_response
           "https://instacart.com/x");
    [reflexivity | reflexivity | reflexivity
     | intros q; reflexivity | reflexivity | reflexivity].
Defined.

Lemma failure_status_raises_witness :
  status_code unprocessable_response = 422%Z
  /\ outcome (_call_instacart_api sample_config (answering unprocessable_response)
                "products/recipe" [("title", VStr "Chili")]) [] =
     inl (HTTPStatusError unprocessable_response)
  /\ length (issued (_call_instacart_api sample_config (answering unprocessable_response)
                       "products/recipe" [("title", VStr "Chili")]) []) = 1%nat.
Proof.
  split; [reflexivity | ].
  apply (failure_status_raises sample_config (answering unprocessable_response) []
           unprocessable_response "products/recipe" [("title", VStr "Chili")]
           (ShoppingListRequest.mk "Snacks" [] None None None)
           (RecipeRequest.mk "Chili" [] None None None None None None (Some false)));
    [reflexivity | reflexivity | reflexivity | reflexivity
     | intros q; reflexivity | simpl; lia].
Defined.

Lemma missing_url_raises_witness :
  outcome (_call_instacart_api sample_config (answering empty_response)
             "products/recipe" [("title", VStr "Chili")]) [] =
  inl (KeyError "products_link_url").
Proof.
  destruct (missing_url_raises sample_config (answering empty_response) []
              empty_response (VDict []) "products/recipe" [("title", VStr "Chili")]
              eq_refl (fun q => eq_refl) eq_refl eq_refl eq_refl)
    as (Hcall & _).
  apply Hcall. reflexivity.
Defined.

Lemma gateway_single_post_witness :
  length (issued (_call_instacart_api sample_config timing_out
                    "products/recipe" [("title", VStr "Chili")]) []) = 1%nat
  /\ outcome (_call_instacart_api sample_config timing_out
                "products/recipe" [("title", VStr "Chili")]) [] =
     inl (TransportError ReadTimeout)
  /\ issued (_call_instacart_api accented_config timing_out
               "products/recipe" [("title", VStr "Chili")]) [] = [].
Proof.
  destruct (gateway_single_post sample_config timing_out [] "products/recipe"
              [("title", VStr "Chili")]) as (Hsend & _).
  destruct (Hsend eq_refl eq_refl)
    as (q & _ & Hissued & _ & _ & _ & _ & Htimeout).
  destruct (gateway_single_post accented_config timing_out [] "products/recipe"
              [("title", VStr "Chili")]) as (_ & Hascii & _).
  split; [ | split ].
  - rewrite Hissued. reflexivity.
  - apply Htimeout; reflexivity.
  - apply (Hascii eq_refl).
Defined.

(** The flag is read without regard to case, and only the text true
    turns it on. *)
Example is_prod_from_environment :
  IS_PROD (load_config (fun k => if String.eqb k "IS_PROD" then Some "True" else None)) = true
  /\ IS_PROD (load_config (fun k => if String.eqb k "IS_PROD" then Some "1" else None)) = false
  /\ IS_PROD (load_config (fun _ => None)) = false.
Proof. repeat split. Qed.

(** A whole production call on the Weekend BBQ list. *)
Example weekend_bbq_production_run :
  forall request,
    ShoppingListRequest.validate weekend_bbq = inr request ->
    create_shopping_list (mkConfig None (Some "prod-key") true)
                         (answering ok_response) request [] =
    ([ {| method := "POST";
          url := "https://connect.instacart.com/idp/v1/products/products_link";
          json := VDict (shopping_list_data request);
          headers := [("Authorization", "Bearer prod-key")];
          timeout := float_of_Z 30 |} ],
     inr (VStr "https://instacart.com/x")).
Proof. intros request H. injection H as <-. reflexivity. Qed.

(** The Chili recipe as it is sent: the ingredient with the fields given,
    the author set to null left out, the pantry default present. *)
Example chili_payload :
  exists request,
    RecipeRequest.validate chili = inr request
    /\ RecipeRequest.dict request =
       [ ("title", VStr "Chili");
         ("ingredients",
          VList [ VDict [ ("name", VStr "Beans");
                          ("quantity", VFloat (float_of_Z 2));
                          ("unit", VStr "cans") ] ]);
         ("enable_pantry_items", VBool false) ].
Proof. eexists. split; reflexivity. Qed.

(** ** Reading the production flag (main.py, line 12) *)

Lemma lower_ascii_t (c : ascii) :
  lower_ascii c = "t"%char <-> c = "t"%char \/ c = "T"%char.
Proof.
  split.
  - destruct c as [[] [] [] [] [] [] [] []]; cbv; intros H;
      solve [discriminate H | auto].
  - intros [-> | ->]; reflexivity.
Qed.

Lemma lower_ascii_r (c : ascii) :
  lower_ascii c = "r"%char <-> c = "r"%char \/ c = "R"%char.
Proof.
  split.
  - destruct c as [[] [] [] [] [] [] [] []]; cbv; intros H;
      solve [discriminate H | auto].
  - intros [-> | ->]; reflexivity.
Qed.

Lemma lower_ascii_u (c : ascii) :
  lower_ascii c = "u"%char <-> c = "u"%char \/ c = "U"%char.
Proof.
  split.
  - destruct c as [[] [] [] [] [] [] [] []]; cbv; intros H;
      solve [discriminate H | auto].
  - intros [-> | ->]; reflexivity.
Qed.

Lemma lower_ascii_e (c : ascii) :
  lower_ascii c = "e"%char <-> c = "e"%char \/ c = "E"%char.
Proof.
  split.
  - destruct c as [[] [] [] [] [] [] [] []]; cbv; intros H;
      solve [discriminate H | auto].
  - intros [-> | ->]; reflexivity.
Qed.

(** X1: the production flag is on exactly when IS_PROD is defined and its
    value is the four letters t, r, u, e, each in either case; any other
    text (also with blanks around it) and an undefined variable leave it
    off. *)
Theorem is_prod_iff_spells_true :
  forall environ : string -> option string,
    IS_PROD (load_config environ) = true <->
    exists c1 c2 c3 c4 : ascii,
      environ "IS_PROD" = Some (String c1 (String c2 (String c3 (String c4 EmptyString))))
      /\ (c1 = "t" \/ c1 = "T")%char
      /\ (c2 = "r" \/ c2 = "R")%char
      /\ (c3 = "u" \/ c3 = "U")%char
      /\ (c4 = "e" \/ c4 = "E")%char.
Proof.
  intros environ. unfold load_config, getenv. simpl.
  destruct (environ "IS_PROD") as [v|].
  - rewrite String.eqb_eq. split.
    + destruct v as [|c1 [|c2 [|c3 [|c4 [|c5 v]]]]]; simpl; intros H;
        try discriminate H.
      injection H as H1 H2 H3 H4.
      exists c1, c2, c3, c4. split; [reflexivity | ].
      rewrite <- lower_ascii_t, <- lower_ascii_r, <- lower_ascii_u, <- lower_ascii_e.
      auto.
    + intros (c1 & c2 & c3 & c4 & Hv & H1 & H2 & H3 & H4).
      injection Hv as ->. simpl.
      apply lower_ascii_t in H1. apply lower_ascii_r in H2.
      apply lower_ascii_u in H3. apply lower_ascii_e in H4.
      rewrite H1, H2, H3, H4. reflexivity.
  - split; [discriminate | ].
    intros (c1 & c2 & c3 & c4 & Hv & _). discriminate Hv.
Qed.

Lemma is_prod_iff_spells_true_witness :
  IS_PROD (load_config production_without_key) = true.
Proof.
  apply (proj2 (is_prod_iff_spells_true production_without_key)).
  exists "T"%char, "R"%char, "U"%char, "E"%char.
  repeat split; auto.
Defined.

(** ** More on the gateway (main.py, lines 100-117) *)

(** X2: the gateway does not check that a credential is configured.  When
    the variable of the selected environment is not defined and the
    payload can be serialised, the request is issued all the same, and its
    header reads Authorization: Bearer None. *)
Theorem missing_credential_is_sent_as_None :
  forall (environ : string -> option string) (net : Network)
         (endpoint : string) (data : pydict) (log : list Request),
    json_encodable (VDict data) = true ->
    (IS_PROD (load_config environ) = true ->
     environ "INSTACART_API_KEY" = None ->
     map headers (issued (_call_instacart_api (load_config environ) net endpoint data) log)
     = [[("Authorization", "Bearer None")]])
    /\ (IS_PROD (load_config environ) = false ->
        environ "INSTACART_API_KEY_DEV" = None ->
        map headers (issued (_call_instacart_api (load_config environ) net endpoint data) log)
        = [[("Authorization", "Bearer None")]]).
Proof.
  intros environ net endpoint data log Hjson.
  split; intros Hflag Hkey.
  - assert (Hcred : credential (load_config environ) = None).
    { unfold credential. rewrite Hflag. exact Hkey. }
    rewrite call_issued;
      [ | unfold usable_credential, ascii_credential, legal_credential;
          rewrite Hcred; reflexivity | exact Hjson].
    unfold gateway_request. rewrite Hcred. reflexivity.
  - assert (Hcred : credential (load_config environ) = None).
    { unfold credential. rewrite Hflag. exact Hkey. }
    rewrite call_issued;
      [ | unfold usable_credential, ascii_credential, legal_credential;
          rewrite Hcred; reflexivity | exact Hjson].
    unfold gateway_request. rewrite Hcred. reflexivity.
Qed.

Lemma missing_credential_is_sent_as_None_witness :
  map headers (issued (_call_instacart_api (load_config production_without_key)
                         timing_out "products/recipe" []) [])
  = [[("Authorization", "Bearer None")]].
Proof.
  apply (proj1 (missing_credential_is_sent_as_None production_without_key
                  timing_out "products/recipe" [] [] eq_refl));
    reflexivity.
Defined.

(** X3: when the request is sent (usable credential, payload that can be
    serialised) and the answer has any 2xx status, not only 200, the
    gateway and both tools return whatever the decoded body holds under
    products_link_url, of whatever type (null included), and ignore the
    other fields of the body. *)
Theorem success_returns_field_as_is :
  forall (cfg : Config) (net : Network) (log : list Request) (r : Response)
         (d : pydict) (x : value) (endpoint : string) (data : pydict),
    usable_credential cfg = true ->
    (forall q, net log q = inr r) ->
    (200 <= status_code r <= 299)%Z ->
    decoded r = inr (VDict d) ->
    dict_get d "products_link_url" = Some x ->
    (json_encodable (VDict data) = true ->
     outcome (_call_instacart_api cfg net endpoint data) log = inr x)
    /\ (forall shopping,
           json_encodable (VDict (shopping_list_data shopping)) = true ->
           outcome (create_shopping_list cfg net shopping) log = inr x)
    /\ (forall recipe,
           json_encodable (VDict (RecipeRequest.dict recipe)) = true ->
           outcome (create_recipe cfg net recipe) log = inr x).
Proof.
  intros cfg net log r d x endpoint data Hascii Hnet Hstatus Hbody Hfield.
  assert (Hunwrap : unwrap (inr r) = inr x).
  { unfold unwrap, is_success.
    replace (200 <=? status_code r)%Z with true by (symmetry; apply Z.leb_le; lia).
    replace (status_code r <=? 299)%Z with true by (symmetry; apply Z.leb_le; lia).
    simpl. rewrite Hbody, Hfield. reflexivity. }
  unfold create_shopping_list, create_recipe.
  split; [ | split; intros ? ]; intros Hjson;
    rewrite call_outcome by assumption; rewrite Hnet; exact Hunwrap.
Qed.

Lemma success_returns_field_as_is_witness :
  outcome (_call_instacart_api sample_config (answering created_null_response)
             "products/recipe" []) [] = inr VNone.
Proof.
  destruct (success_returns_field_as_is sample_config (answering created_null_response) []
              created_null_response
              [("id", VInt 7); ("products_link_url", VNone)] VNone "products/recipe" []
              eq_refl (fun q => eq_refl)) as (Hcall & _);
    [simpl; lia | reflexivity | reflexivity | ].
  apply Hcall. reflexivity.
Defined.

(** X4: the ways a gateway call fails.  Before anything is sent: with
    [UnicodeEncodeError] when the credential is not ASCII, with
    [ValueError] when the payload cannot be serialised, with a transport
    error when the header value is illegal.  After its one request: with
    the transport failure of that request; with the HTTP status error of
    a response that is not 2xx; with the exception [response.json()]
    raises on a 2xx body it cannot decode; with [KeyError] on
    products_link_url; or with [TypeError] when the decoded body is not an
    object.  It never raises a validation error and never a [KeyError] on
    another key. *)
Theorem gateway_failure_kinds :
  forall (cfg : Config) (net : Network) (log : list Request)
         (endpoint : string) (data : pydict) (e : exn),
    outcome (_call_instacart_api cfg net endpoint data) log = inl e ->
    (issued (_call_instacart_api cfg net endpoint data) log = []
     /\ ((ascii_credential cfg = false /\ e = UnicodeEncodeError)
         \/ (ascii_credential cfg = true /\ json_encodable (VDict data) = false
             /\ e = ValueError)
         \/ (ascii_credential cfg = true /\ json_encodable (VDict data) = true
             /\ legal_credential cfg = false /\ exists t, e = TransportError t)))
    \/ (exists q,
           issued (_call_instacart_api cfg net endpoint data) log = [q]
           /\ ((exists t, net log q = inl t /\ e = TransportError t)
               \/ (exists r, net log q = inr r /\ is_success r = false
                             /\ e = HTTPStatusError r)
               \/ (exists r f, net log q = inr r /\ is_success r = true
                               /\ decoded r = inl f /\ e = decode_exn f)
               \/ (exists r d, net log q = inr r /\ is_success r = true
                               /\ decoded r = inr (VDict d)
                               /\ dict_get d "products_link_url" = None
                               /\ e = KeyError "products_link_url")
               \/ (exists r body, net log q = inr r /\ is_success r = true
                                  /\ decoded r = inr body
                                  /\ (forall d, body <> VDict d)
                                  /\ e = TypeError))).
Proof.
  intros cfg net log endpoint data e.
  destruct (ascii_credential cfg) eqn:Hascii.
  2:{ unfold outcome.
      rewrite call_issued_nil
        by (unfold usable_credential; rewrite Hascii; reflexivity).
      rewrite call_not_ascii by assumption. simpl. intros H. injection H as <-.
      left. split; [reflexivity | left; split; reflexivity]. }
  destruct (json_encodable (VDict data)) eqn:Hjson.
  2:{ unfold outcome.
      rewrite call_issued_nil by (rewrite Hjson; apply andb_false_r).
      rewrite call_not_encodable by assumption. simpl. intros H. injection H as <-.
      left. split; [reflexivity | right; left; repeat split; reflexivity]. }
  destruct (legal_credential cfg) eqn:Hlegal.
  2:{ unfold outcome.
      rewrite call_issued_nil
        by (unfold usable_credential; rewrite Hlegal, andb_false_r; reflexivity).
      rewrite call_not_legal by assumption. simpl. intros H. injection H as <-.
      left. split; [reflexivity | right; right; repeat split; eauto]. }
  assert (Husable : usable_credential cfg = true).
  { unfold usable_credential. rewrite Hascii, Hlegal. reflexivity. }
  rewrite call_outcome, call_issued by assumption.
  intros H. right. exists (gateway_request cfg endpoint data).
  split; [reflexivity | ].
  destruct (net log (gateway_request cfg endpoint data)) as [t|r]; simpl in H.
  - injection H as <-. left. eauto.
  - right. destruct (is_success r) eqn:Hok.
    + right. destruct (decoded r) as [f|body] eqn:Hbody.
      * injection H as <-. left. exists r, f. auto.
      * right.
        destruct body as [| | | | | |d];
          try (injection H as <-; right; exists r; eexists;
               split; [reflexivity | ];
               split; [exact Hok | ];
               split; [exact Hbody | ];
               split; [intros d'; discriminate | reflexivity]).
        destruct (dict_get d "products_link_url") eqn:Hget; [discriminate H | ].
        injection H as <-. left. exists r, d. auto.
    + injection H as <-. left. exists r. auto.
Qed.

Lemma gateway_failure_kinds_witness :
  issued (_call_instacart_api accented_config timing_out "products/recipe" []) [] = []
  /\ exists q,
       issued (_call_instacart_api sample_config timing_out "products/recipe" []) [] = [q].
Proof.
  split.
  - destruct (gateway_failure_kinds accented_config timing_out [] "products/recipe" []
                UnicodeEncodeError eq_refl) as [(Hnone & _) | (q & Hq & _)].
    + exact Hnone.
    + rewrite Hq. discriminate Hq.
  - destruct (gateway_failure_kinds sample_config timing_out [] "products/recipe" []
                (TransportError ReadTimeout) eq_refl) as [(Hnone & _) | (q & Hq & _)].
    + discriminate Hnone.
    + exists q. exact Hq.
Defined.

(** X5: a tool whose credential is usable and whose payload can be
    serialised appends exactly one POST to the trace:
    [create_shopping_list] to <base>/idp/v1/products/products_link and
    [create_recipe] to <base>/idp/v1/products/recipe, where <base> and the
    credential follow the production flag; the two requests differ in path
    and payload only.  With a credential that is not ASCII both tools fail
    with [UnicodeEncodeError], and with a payload that cannot be
    serialised with [ValueError], leaving the trace as it was. *)
Theorem tool_requests :
  forall (cfg : Config) (net : Network) (log : list Request)
         (shopping : ShoppingListRequest.t) (recipe : RecipeRequest.t),
    (usable_credential cfg = true ->
     json_encodable (VDict (shopping_list_data shopping)) = true ->
     fst (create_shopping_list cfg net shopping log) =
     log ++ [ {| method := "POST";
                 url := base_url (IS_PROD cfg) ++ "/idp/v1/products/products_link";
                 json := VDict (shopping_list_data shopping);
                 headers := [("Authorization",
                              "Bearer " ++ format_value (credential cfg))];
                 timeout := float_of_Z 30 |} ]%string)
    /\ (usable_credential cfg = true ->
        json_encodable (VDict (RecipeRequest.dict recipe)) = true ->
        fst (create_recipe cfg net recipe log) =
        log ++ [ {| method := "POST";
                    url := base_url (IS_PROD cfg) ++ "/idp/v1/products/recipe";
                    json := VDict (RecipeRequest.dict recipe);
                    headers := [("Authorization",
                                 "Bearer " ++ format_value (credential cfg))];
                    timeout := float_of_Z 30 |} ]%string)
    /\ (ascii_credential cfg = false ->
        create_shopping_list cfg net shopping log = (log, inl UnicodeEncodeError)
        /\ create_recipe cfg net recipe log = (log, inl UnicodeEncodeError))
    /\ (ascii_credential cfg = true ->
        json_encodable (VDict (shopping_list_data shopping)) = false ->
        create_shopping_list cfg net shopping log = (log, inl ValueError))
    /\ (ascii_credential cfg = true ->
        json_encodable (VDict (RecipeRequest.dict recipe)) = false ->
        create_recipe cfg net recipe log = (log, inl ValueError)).
Proof.
  intros cfg net log shopping recipe.
  unfold create_shopping_list, create_recipe.
  split; [ | split; [ | split; [ | split ] ] ].
  - intros Husable Hjson. destruct (usable_split cfg Husable) as [Hascii Hlegal].
    rewrite call_run, Hascii, Hjson, Hlegal. reflexivity.
  - intros Husable Hjson. destruct (usable_split cfg Husable) as [Hascii Hlegal].
    rewrite call_run, Hascii, Hjson, Hlegal. reflexivity.
  - intros Hascii. split; apply call_not_ascii; exact Hascii.
  - intros Hascii Hjson. apply call_not_encodable; assumption.
  - intros Hascii Hjson. apply call_not_encodable; assumption.
Qed.

Lemma tool_requests_witness :
  exists recipe,
    RecipeRequest.validate soup_with_nan = inr recipe
    /\ create_recipe sample_config (answering ok_response) recipe [] =
       ([], inl ValueError).
Proof.
  eexists. split; [reflexivity | ].
  match goal with
  | |- create_recipe _ _ ?recipe _ = _ =>
      destruct (tool_requests sample_config (answering ok_response) []
                  (ShoppingListRequest.mk "Snacks" [] None None None) recipe)
        as (_ & _ & _ & _ & Hnan)
  end.
  apply Hnan; reflexivity.
Defined.

(** ** Dict operations *)

Lemma dict_get_app (d1 d2 : pydict) (k : string) :
  dict_get (d1 ++ d2) k =
  match dict_get d1 k with
  | Some v => Some v
  | None => dict_get d2 k
  end.
Proof.
  induction d1 as [|[k' v'] d1 IH]; simpl; [reflexivity | ].
  destruct (String.eqb k' k); [reflexivity | exact IH].
Qed.

Lemma dict_get_opt_entry {A} (k' : string) (f : A -> value) (o : option A) (k : string) :
  dict_get (opt_entry k' f o) k = if String.eqb k' k then option_map f o else None.
Proof. destruct o; simpl; destruct (String.eqb k' k); reflexivity. Qed.

Lemma dict_get_None_iff (d : pydict) (k : string) :
  dict_get d k = None <-> ~ In k (dict_keys d).
Proof.
  induction d as [|[k' v'] d IH]; simpl.
  - tauto.
  - destruct (String.eqb_spec k' k) as [->|Hne].
    + split; [discriminate | intros H; exfalso; apply H; auto].
    + rewrite IH. split; [intros H [Heq|Hin]; auto | intros H Hin; apply H; auto].
Qed.

Lemma dict_set_fresh (d : pydict) (k : string) (v : value) :
  ~ In k (dict_keys d) -> dict_set d k v = d ++ [(k, v)].
Proof.
  induction d as [|[k' v'] d IH]; simpl; intros Hfresh; [reflexivity | ].
  destruct (String.eqb_spec k' k) as [->|Hne].
  - exfalso. apply Hfresh. auto.
  - rewrite IH; [reflexivity | intros Hin; apply Hfresh; auto].
Qed.

Lemma dict_set_present (d : pydict) (k : string) (v : value) :
  In k (dict_keys d) -> dict_keys (dict_set d k v) = dict_keys d.
Proof.
  induction d as [|[k' v'] d IH]; simpl; intros Hin; [contradiction | ].
  destruct (String.eqb_spec k' k) as [->|Hne]; simpl; [reflexivity | ].
  rewrite IH; [reflexivity | ]. destruct Hin as [Heq|Hin]; [contradiction | exact Hin].
Qed.

Lemma dict_get_set_same (d : pydict) (k : string) (v : value) :
  dict_get (dict_set d k v) k = Some v.
Proof.
  induction d as [|[k' v'] d IH]; simpl.
  - rewrite String.eqb_refl. reflexivity.
  - destruct (String.eqb k' k) eqn:Heq; simpl; rewrite Heq; [reflexivity | exact IH].
Qed.

Lemma dict_get_set_other (d : pydict) (k k' : string) (v : value) :
  k' <> k -> dict_get (dict_set d k v) k' = dict_get d k'.
Proof.
  intros Hne. induction d as [|[k0 v0] d IH]; simpl.
  - destruct (String.eqb_spec k k'); [congruence | reflexivity].
  - destruct (String.eqb_spec k0 k) as [->|Hk0]; simpl.
    + destruct (String.eqb_spec k k'); [congruence | reflexivity].
    + rewrite IH. reflexivity.
Qed.

Lemma NoDup_app_fresh (l : list string) (k : string) :
  NoDup l -> ~ In k l -> NoDup (l ++ [k]).
Proof.
  induction 1 as [|x l Hx Hl IH]; simpl; intros Hk.
  - constructor; [tauto | constructor].
  - constructor.
    + rewrite in_app_iff. simpl. intros [Hin|[Heq|[]]]; [tauto | ].
      apply Hk. auto.
    + apply IH. tauto.
Qed.

(** X6: the dict literal that adds an entry, as [create_shopping_list]
    does for link_type, behaves as a dict must, for any dict and any key:
    the new key then holds the new value, the value of every other key
    is unchanged, keys stay unique, a key that was there keeps its place
    and a key that was not goes last. *)
Theorem dict_set_laws :
  forall (d : pydict) (k : string) (v : value),
    dict_get (dict_set d k v) k = Some v
    /\ (forall k', k' <> k -> dict_get (dict_set d k v) k' = dict_get d k')
    /\ (NoDup (dict_keys d) -> NoDup (dict_keys (dict_set d k v)))
    /\ (In k (dict_keys d) -> dict_keys (dict_set d k v) = dict_keys d)
    /\ (~ In k (dict_keys d) -> dict_set d k v = d ++ [(k, v)]).
Proof.
  intros d k v.
  split; [apply dict_get_set_same | ].
  split; [intros k'; apply dict_get_set_other | ].
  split; [ | split; [apply dict_set_present | apply dict_set_fresh] ].
  intros Hnodup.
  destruct (in_dec string_dec k (dict_keys d)) as [Hin|Hfresh].
  - rewrite dict_set_present; assumption.
  - rewrite dict_set_fresh by assumption.
    unfold dict_keys. rewrite map_app. simpl.
    apply NoDup_app_fresh; assumption.
Qed.

Lemma dict_set_laws_witness :
  dict_get (dict_set [("a", VInt 1); ("b", VInt 2)] "a" VNone) "b" = Some (VInt 2)
  /\ dict_set [("a", VInt 1); ("b", VInt 2)] "c" VNone =
     [("a", VInt 1); ("b", VInt 2); ("c", VNone)].
Proof.
  destruct (dict_set_laws [("a", VInt 1); ("b", VInt 2)] "a" VNone)
    as (_ & Hother & _).
  destruct (dict_set_laws [("a", VInt 1); ("b", VInt 2)] "c" VNone)
    as (_ & _ & _ & _ & Hfresh).
  split.
  - rewrite Hother; [reflexivity | discriminate].
  - rewrite Hfresh; [reflexivity | ].
    simpl. intros [H|[H|[]]]; discriminate H.
Defined.

(** ** More on the payloads *)

Lemma shopping_list_keys (x : ShoppingListRequest.t) :
  dict_keys (ShoppingListRequest.dict x) =
  ["title"; "line_items"]
  ++ key_of "image_url" (ShoppingListRequest.image_url x)
  ++ key_of "instructions" (ShoppingListRequest.instructions x)
  ++ key_of "partner_linkback_url" (ShoppingListRequest.partner_linkback_url x).
Proof. destruct x as [t l [i|] [ins|] [p|]]; reflexivity. Qed.

(** X7: in the shopping-list payload link_type overwrites nothing: the
    payload is the dump of the request followed by link_type as its last
    entry.  Its keys are title, line_items, then those of image_url,
    instructions and partner_linkback_url that are not [None], then
    link_type, in this order and without repetition, and every field
    keeps the value the dump gave it. *)
Theorem link_type_is_appended :
  forall request : ShoppingListRequest.t,
    shopping_list_data request =
    ShoppingListRequest.dict request ++ [("link_type", VStr "shopping_list")]
    /\ dict_keys (shopping_list_data request) =
       ["title"; "line_items"]
       ++ key_of "image_url" (ShoppingListRequest.image_url request)
       ++ key_of "instructions" (ShoppingListRequest.instructions request)
       ++ key_of "partner_linkback_url" (ShoppingListRequest.partner_linkback_url request)
       ++ ["link_type"]
    /\ NoDup (dict_keys (shopping_list_data request))
    /\ (forall k, k <> "link_type" ->
                  dict_get (shopping_list_data request) k =
                  dict_get (ShoppingListRequest.dict request) k).
Proof.
  intros request.
  assert (Hdata : shopping_list_data request =
                  ShoppingListRequest.dict request ++ [("link_type", VStr "shopping_list")]).
  { unfold shopping_list_data. apply dict_set_fresh.
    rewrite shopping_list_keys.
    destruct request as [t l [i|] [ins|] [p|]]; simpl;
      intros H; repeat (destruct H as [H|H]; [discriminate H | ]); exact H. }
  split; [exact Hdata | ].
  split; [ | split ].
  - rewrite Hdata. unfold dict_keys. rewrite map_app.
    fold (dict_keys (ShoppingListRequest.dict request)).
    rewrite shopping_list_keys. simpl. rewrite <- !app_assoc. reflexivity.
  - rewrite Hdata. unfold dict_keys. rewrite map_app.
    fold (dict_keys (ShoppingListRequest.dict request)).
    rewrite shopping_list_keys.
    destruct request as [t l [i|] [ins|] [p|]]; simpl;
      repeat (constructor; [simpl; intros H;
                            repeat (destruct H as [H|H]; [discriminate H | ]);
                            exact H | ]);
      constructor.
  - intros k Hk. unfold shopping_list_data. apply dict_get_set_other. exact Hk.
Qed.

Lemma link_type_is_appended_witness :
  dict_get (shopping_list_data
              (ShoppingListRequest.mk "Weekend BBQ"
                 [LineItem.mk "Burger Buns" (Some (NInt 1)) (Some "each") None]
                 None (Some []) None)) "instructions" = Some (VList []).
Proof.
  destruct (link_type_is_appended
              (ShoppingListRequest.mk "Weekend BBQ"
                 [LineItem.mk "Burger Buns" (Some (NInt 1)) (Some "each") None]
                 None (Some []) None)) as (_ & _ & _ & Hother).
  rewrite Hother; [reflexivity | discriminate].
Defined.

Lemma recipe_keys (x : RecipeRequest.t) :
  dict_keys (RecipeRequest.dict x) =
  ["title"; "ingredients"]
  ++ key_of "image_url" (RecipeRequest.image_url x)
  ++ key_of "author" (RecipeRequest.author x)
  ++ key_of "servings" (RecipeRequest.servings x)
  ++ key_of "cooking_time" (RecipeRequest.cooking_time x)
  ++ key_of "instructions" (RecipeRequest.instructions x)
  ++ key_of "partner_linkback_url" (RecipeRequest.partner_linkback_url x)
  ++ key_of "enable_pantry_items" (RecipeRequest.enable_pantry_items x).
Proof. destruct x as [t l [i|] [a|] [s|] [c|] [ins|] [p|] [e|]]; reflexivity. Qed.

(** X8: for every valid RecipeRequest the payload sent by [create_recipe]
    holds title and the ingredients in the order given, and every other
    field the caller set to a value that is not null, with that value,
    also when the value is 0, false, an empty text or an empty list; it
    has no entry for a field set to null, nor for one left out, except
    enable_pantry_items, which is then sent as false; each ingredient is
    sent by the same rule; and no null occurs anywhere in the payload.
    Every request the tool issues carries this payload, and it issues
    exactly one when the credential is usable and the payload can be
    serialised. *)
Theorem recipe_payload :
  forall (a : RecipeRequest.args) (request : RecipeRequest.t),
    RecipeRequest.validate a = inr request ->
    let data := RecipeRequest.dict request in
    sends (fun cfg net => create_recipe cfg net request) data
    /\ (exists t, RecipeRequest.a_title a = Val t
                  /\ dict_get data "title" = Some (VStr t))
    /\ (exists raw sent, RecipeRequest.a_ingredients a = Val raw
                         /\ dict_get data "ingredients" = Some (VList sent)
                         /\ Forall2 ingredient_sent raw sent)
    /\ carries data "image_url" VStr None (RecipeRequest.a_image_url a)
    /\ carries data "author" VStr None (RecipeRequest.a_author a)
    /\ carries data "servings" VInt None (RecipeRequest.a_servings a)
    /\ carries data "cooking_time" VInt None (RecipeRequest.a_cooking_time a)
    /\ carries data "instructions" str_list_value None (RecipeRequest.a_instructions a)
    /\ carries data "partner_linkback_url" VStr None
               (RecipeRequest.a_partner_linkback_url a)
    /\ carries data "enable_pantry_items" VBool (Some (VBool false))
               (RecipeRequest.a_enable_pantry_items a)
    /\ has_none (VDict data) = false.
Proof.
  intros a request Hvalid data.
  pose proof (recipe_fields a request Hvalid) as Hfields.
  destruct (recipe_items a request Hvalid) as (raw & items & Hraw & Hitems & Hsent).
  destruct (recipe_validated a request Hvalid)
    as (t & raw' & items' & Ht & _ & _ & Hrequest).
  split; [apply recipe_sent | ].
  split; [exists t; split; [exact Ht | subst data; rewrite Hrequest; reflexivity] | ].
  split; [ | exact Hfields].
  exists raw, (map (fun i => VDict (Ingredient.dict i)) items).
  split; [exact Hraw | split; [exact Hsent | ] ].
  apply Forall2_map_r.
  eapply Forall2_weaken; [ | exact Hitems].
  intros ai xi. apply ingredient_validated.
Qed.

Lemma recipe_payload_witness :
  exists request,
    RecipeRequest.validate chili = inr request
    /\ dict_get (RecipeRequest.dict request) "author" = None
    /\ dict_get (RecipeRequest.dict request) "enable_pantry_items" = Some (VBool false).
Proof.
  eexists. split; [reflexivity | ].
  destruct (recipe_payload chili _ eq_refl)
    as (_ & _ & _ & _ & Hauthor & _ & _ & _ & _ & Hpantry & _).
  split; [exact Hauthor | exact Hpantry].
Defined.

(** X9: every request [create_recipe] issues carries the dump of the
    request, and the keys of that payload are title, ingredients, then those
    of image_url, author, servings, cooking_time, instructions,
    partner_linkback_url and enable_pantry_items whose value is not
    [None], in the order of the model's declaration and without
    repetition. *)
Theorem recipe_payload_keys :
  forall (request : RecipeRequest.t) (cfg : Config) (net : Network)
         (log : list Request),
    (forall q, In q (issued (create_recipe cfg net request) log) ->
               json q = VDict (RecipeRequest.dict request))
    /\ dict_keys (RecipeRequest.dict request) =
       ["title"; "ingredients"]
       ++ key_of "image_url" (RecipeRequest.image_url request)
       ++ key_of "author" (RecipeRequest.author request)
       ++ key_of "servings" (RecipeRequest.servings request)
       ++ key_of "cooking_time" (RecipeRequest.cooking_time request)
       ++ key_of "instructions" (RecipeRequest.instructions request)
       ++ key_of "partner_linkback_url" (RecipeRequest.partner_linkback_url request)
       ++ key_of "enable_pantry_items" (RecipeRequest.enable_pantry_items request)
    /\ NoDup (dict_keys (RecipeRequest.dict request)).
Proof.
  intros request cfg net log.
  split; [apply (proj1 (recipe_sent request cfg net log)) | ].
  split; [apply recipe_keys | ].
  rewrite recipe_keys.
  destruct request as [t l [i|] [a|] [s|] [c|] [ins|] [p|] [e|]]; simpl;
    repeat (constructor; [simpl; intros H;
                          repeat (destruct H as [H|H]; [discriminate H | ]);
                          exact H | ]);
    constructor.
Qed.

(** ** Which requests are valid *)

Lemma validate_items_total {A B} (validate : A -> result B) :
  forall (l : list A) (i : nat),
    Forall (fun a => exists b, validate a = inr b) l ->
    exists bs, validate_items validate i l = inr bs.
Proof.
  induction l as [|a l IH]; simpl; intros i Hall.
  - eauto.
  - inversion Hall as [|? ? [b Hb] Hl]; subst.
    rewrite Hb. destruct (IH (S i) Hl) as [bs Hbs]. rewrite Hbs. simpl. eauto.
Qed.

Lemma validate_items_error {A B} (validate : A -> result B) :
  (forall a e, validate a = inl e -> exists loc why, e = ValidationError loc why) ->
  forall (l : list A) (i : nat) (e : exn),
    validate_items validate i l = inl e ->
    exists loc why, e = ValidationError loc why.
Proof.
  intros Hvalidate. induction l as [|a l IH]; simpl; intros i e H.
  - discriminate H.
  - destruct (validate a) as [e'|b] eqn:Ha.
    + destruct (Hvalidate a e' Ha) as (loc & why & ->).
      injection H as <-. eauto.
    + destruct (validate_items validate (S i) l) as [e'|bs] eqn:Hl; simpl in H.
      * injection H as <-. eauto.
      * discriminate H.
Qed.

Lemma line_item_valid_iff (a : LineItem.args) :
  (exists x, LineItem.validate a = inr x) <-> (exists n, LineItem.a_name a = Val n).
Proof.
  destruct a as [[| |n] q u t]; unfold LineItem.validate; simpl; split;
    intros [x H]; try discriminate H; eauto.
Qed.

Lemma ingredient_valid_iff (a : Ingredient.args) :
  (exists x, Ingredient.validate a = inr x) <-> (exists n, Ingredient.a_name a = Val n).
Proof.
  destruct a as [[| |n] t q u]; unfold Ingredient.validate; simpl; split;
    intros [x H]; try discriminate H; eauto.
Qed.

Lemma line_item_error (a : LineItem.args) (e : exn) :
  LineItem.validate a = inl e -> exists loc why, e = ValidationError loc why.
Proof.
  destruct a as [[| |n] q u t]; unfold LineItem.validate; simpl; intros H;
    try discriminate H; injection H as <-; eauto.
Qed.

Lemma ingredient_error (a : Ingredient.args) (e : exn) :
  Ingredient.validate a = inl e -> exists loc why, e = ValidationError loc why.
Proof.
  destruct a as [[| |n] t q u]; unfold Ingredient.validate; simpl; intros H;
    try discriminate H; injection H as <-; eauto.
Qed.

(** X10: a ShoppingListRequest is valid exactly when title and line_items
    are supplied and not null and every line item has a name that is
    supplied and not null; the list may be empty, and nothing is asked of
    the optional fields.  An invalid request fails with a validation
    error and with nothing else. *)
Theorem shopping_list_validity :
  forall a : ShoppingListRequest.args,
    ((exists request, ShoppingListRequest.validate a = inr request) <->
     (exists t raw,
         ShoppingListRequest.a_title a = Val t
         /\ ShoppingListRequest.a_line_items a = Val raw
         /\ Forall (fun i => exists n, LineItem.a_name i = Val n) raw))
    /\ (forall e, ShoppingListRequest.validate a = inl e ->
                  exists loc why, e = ValidationError loc why).
Proof.
  intros a. split; [split | ].
  - intros [request Hvalid].
    destruct (shopping_list_validated a request Hvalid)
      as (t & raw & items & Ht & Hraw & Hitems & _).
    exists t, raw. split; [exact Ht | split; [exact Hraw | ] ].
    clear Hraw. induction Hitems as [|ai xi raw items Hai _ IH]; constructor.
    + apply line_item_valid_iff. eauto.
    + exact IH.
  - intros (t & raw & Ht & Hraw & Hnames).
    destruct a as [ta la i ins p]. simpl in Ht, Hraw. subst ta la.
    unfold ShoppingListRequest.validate. simpl.
    destruct (validate_items_total LineItem.validate raw 0) as [items Hitems].
    { eapply Forall_impl; [ | exact Hnames].
      intros ai Hai. apply line_item_valid_iff. exact Hai. }
    rewrite Hitems. simpl. eauto.
  - intros e. destruct a as [[| |t] [| |raw] i ins p];
      unfold ShoppingListRequest.validate; simpl; intros H;
      try (injection H as <-; eauto; fail).
    destruct (validate_items LineItem.validate 0 raw) as [e'|items] eqn:Hitems.
    + destruct (validate_items_error LineItem.validate line_item_error raw 0 e' Hitems)
        as (loc & why & ->).
      simpl in H. injection H as <-. eauto.
    + discriminate H.
Qed.

Lemma shopping_list_validity_witness :
  exists request,
    ShoppingListRequest.validate
      (ShoppingListRequest.mk_args (Val "") (Val []) Null Null Null) = inr request.
Proof.
  apply (proj1 (shopping_list_validity
                  (ShoppingListRequest.mk_args (Val "") (Val []) Null Null Null))).
  exists "", []. repeat split. constructor.
Defined.

(** X11: a RecipeRequest is valid exactly when title and ingredients are
    supplied and not null and every ingredient has a name that is supplied
    and not null; the list may be empty.  An invalid request fails with a
    validation error and with nothing else. *)
Theorem recipe_validity :
  forall a : RecipeRequest.args,
    ((exists request, RecipeRequest.validate a = inr request) <->
     (exists t raw,
         RecipeRequest.a_title a = Val t
         /\ RecipeRequest.a_ingredients a = Val raw
         /\ Forall (fun i => exists n, Ingredient.a_name i = Val n) raw))
    /\ (forall e, RecipeRequest.validate a = inl e ->
                  exists loc why, e = ValidationError loc why).
Proof.
  intros a. split; [split | ].
  - intros [request Hvalid].
    destruct (recipe_validated a request Hvalid)
      as (t & raw & items & Ht & Hraw & Hitems & _).
    exists t, raw. split; [exact Ht | split; [exact Hraw | ] ].
    clear Hraw. induction Hitems as [|ai xi raw items Hai _ IH]; constructor.
    + apply ingredient_valid_iff. eauto.
    + exact IH.
  - intros (t & raw & Ht & Hraw & Hnames).
    destruct a as [ta la i au s c ins p e]. simpl in Ht, Hraw. subst ta la.
    unfold RecipeRequest.validate. simpl.
    destruct (validate_items_total Ingredient.validate raw 0) as [items Hitems].
    { eapply Forall_impl; [ | exact Hnames].
      intros ai Hai. apply ingredient_valid_iff. exact Hai. }
    rewrite Hitems. simpl. eauto.
  - intros e. destruct a as [[| |t] [| |raw] i au s c ins p pe];
      unfold RecipeRequest.validate; simpl; intros H;
      try (injection H as <-; eauto; fail).
    destruct (validate_items Ingredient.validate 0 raw) as [e'|items] eqn:Hitems.
    + destruct (validate_items_error Ingredient.validate ingredient_error raw 0 e' Hitems)
        as (loc & why & ->).
      simpl in H. injection H as <-. eauto.
    + discriminate H.
Qed.

Lemma recipe_validity_witness :
  exists loc why,
    RecipeRequest.validate
      (RecipeRequest.mk_args (Val "Chili")
         (Val [Ingredient.mk_args Null Unset Unset Unset])
         Unset Unset Unset Unset Unset Unset Unset)
    = inl (ValidationError loc why).
Proof.
  destruct (proj2 (recipe_validity
                     (RecipeRequest.mk_args (Val "Chili")
                        (Val [Ingredient.mk_args Null Unset Unset Unset])
                        Unset Unset Unset Unset Unset Unset Unset))
                  (ValidationError [Field "ingredients"; Index 0; Field "name"]
                                   NoneNotAllowed)
                  eq_refl) as (loc & why & H).
  exists loc, why. rewrite <- H. reflexivity.
Defined.

(** ** The payload determines the request *)

Lemma option_map_inj {A B} (f : A -> B) :
  (forall a a', f a = f a' -> a = a') ->
  forall o o', option_map f o = option_map f o' -> o = o'.
Proof.
  intros Hf [a|] [a'|]; simpl; intros H; try discriminate H; [ | reflexivity].
  injection H as H. f_equal. apply Hf. exact H.
Qed.

Lemma map_inj {A B} (f : A -> B) :
  (forall a a', f a = f a' -> a = a') ->
  forall l l', map f l = map f l' -> l = l'.
Proof.
  intros Hf. induction l as [|a l IH]; intros [|a' l']; simpl; intros H;
    try discriminate H; [reflexivity | ].
  injection H as Ha Hl. f_equal; [apply Hf; exact Ha | apply IH; exact Hl].
Qed.

Lemma VDict_inj (d d' : pydict) : VDict d = VDict d' -> d = d'.
Proof. intros H. injection H as H. exact H. Qed.

Lemma VStr_inj (s s' : string) : VStr s = VStr s' -> s = s'.
Proof. intros H. injection H as H. exact H. Qed.

Lemma VInt_inj (z z' : Z) : VInt z = VInt z' -> z = z'.
Proof. intros H. injection H as H. exact H. Qed.

Lemma VBool_inj (b b' : bool) : VBool b = VBool b' -> b = b'.
Proof. intros H. injection H as H. exact H. Qed.

Lemma VFloat_inj (f f' : spec_float) : VFloat f = VFloat f' -> f = f'.
Proof. intros H. injection H as H. exact H. Qed.

Lemma number_value_inj (n n' : number) : number_value n = number_value n' -> n = n'.
Proof.
  destruct n, n'; simpl; intros H; try discriminate H; injection H as ->; reflexivity.
Qed.

Lemma str_list_value_inj (l l' : list string) :
  str_list_value l = str_list_value l' -> l = l'.
Proof.
  unfold str_list_value. intros H. injection H as H.
  eapply map_inj; [exact VStr_inj | exact H].
Qed.

Ltac lookup_field :=
  rewrite ?dict_get_app, ?dict_get_opt_entry; simpl;
  repeat match goal with |- context [option_map _ ?o] => destruct o; simpl end;
  reflexivity.

Lemma line_item_lookups (x : LineItem.t) :
  dict_get (LineItem.dict x) "name" = Some (VStr (LineItem.name x))
  /\ dict_get (LineItem.dict x) "quantity" = option_map number_value (LineItem.quantity x)
  /\ dict_get (LineItem.dict x) "unit" = option_map VStr (LineItem.unit x)
  /\ dict_get (LineItem.dict x) "display_text" = option_map VStr (LineItem.display_text x).
Proof. unfold LineItem.dict, entry. repeat split; lookup_field. Qed.

Lemma ingredient_lookups (x : Ingredient.t) :
  dict_get (Ingredient.dict x) "name" = Some (VStr (Ingredient.name x))
  /\ dict_get (Ingredient.dict x) "display_text" = option_map VStr (Ingredient.display_text x)
  /\ dict_get (Ingredient.dict x) "quantity" = option_map VFloat (Ingredient.quantity x)
  /\ dict_get (Ingredient.dict x) "unit" = option_map VStr (Ingredient.unit x).
Proof. unfold Ingredient.dict, entry. repeat split; lookup_field. Qed.

Lemma line_item_dict_inj (x y : LineItem.t) :
  VDict (LineItem.dict x) = VDict (LineItem.dict y) -> x = y.
Proof.
  intros H. apply VDict_inj in H.
  destruct (line_item_lookups x) as (Hn & Hq & Hu & Ht).
  destruct (line_item_lookups y) as (Hn' & Hq' & Hu' & Ht').
  rewrite H in Hn, Hq, Hu, Ht.
  rewrite Hn in Hn'. rewrite Hq in Hq'. rewrite Hu in Hu'. rewrite Ht in Ht'.
  injection Hn' as Hn'.
  apply (option_map_inj number_value number_value_inj) in Hq'.
  apply (option_map_inj VStr VStr_inj) in Hu', Ht'.
  destruct x, y; simpl in *. congruence.
Qed.

Lemma ingredient_dict_inj (x y : Ingredient.t) :
  VDict (Ingredient.dict x) = VDict (Ingredient.dict y) -> x = y.
Proof.
  intros H. apply VDict_inj in H.
  destruct (ingredient_lookups x) as (Hn & Ht & Hq & Hu).
  destruct (ingredient_lookups y) as (Hn' & Ht' & Hq' & Hu').
  rewrite H in Hn, Hq, Hu, Ht.
  rewrite Hn in Hn'. rewrite Hq in Hq'. rewrite Hu in Hu'. rewrite Ht in Ht'.
  injection Hn' as Hn'.
  apply (option_map_inj VFloat VFloat_inj) in Hq'.
  apply (option_map_inj VStr VStr_inj) in Hu', Ht'.
  destruct x, y; simpl in *. congruence.
Qed.

Lemma shopping_list_lookups (x : ShoppingListRequest.t) :
  dict_get (ShoppingListRequest.dict x) "title" = Some (VStr (ShoppingListRequest.title x))
  /\ dict_get (ShoppingListRequest.dict x) "line_items" =
     Some (VList (map (fun i => VDict (LineItem.dict i)) (ShoppingListRequest.line_items x)))
  /\ dict_get (ShoppingListRequest.dict x) "image_url" =
     option_map VStr (ShoppingListRequest.image_url x)
  /\ dict_get (ShoppingListRequest.dict x) "instructions" =
     option_map str_list_value (ShoppingListRequest.instructions x)
  /\ dict_get (ShoppingListRequest.dict x) "partner_linkback_url" =
     option_map VStr (ShoppingListRequest.partner_linkback_url x).
Proof. unfold ShoppingListRequest.dict, entry. repeat split; lookup_field. Qed.

Lemma recipe_lookups (x : RecipeRequest.t) :
  dict_get (RecipeRequest.dict x) "title" = Some (VStr (RecipeRequest.title x))
  /\ dict_get (RecipeRequest.dict x) "ingredients" =
     Some (VList (map (fun i => VDict (Ingredient.dict i)) (RecipeRequest.ingredients x)))
  /\ dict_get (RecipeRequest.dict x) "image_url" = option_map VStr (RecipeRequest.image_url x)
  /\ dict_get (RecipeRequest.dict x) "author" = option_map VStr (RecipeRequest.author x)
  /\ dict_get (RecipeRequest.dict x) "servings" = option_map VInt (RecipeRequest.servings x)
  /\ dict_get (RecipeRequest.dict x) "cooking_time" =
     option_map VInt (RecipeRequest.cooking_time x)
  /\ dict_get (RecipeRequest.dict x) "instructions" =
     option_map str_list_value (RecipeRequest.instructions x)
  /\ dict_get (RecipeRequest.dict x) "partner_linkback_url" =
     option_map VStr (RecipeRequest.partner_linkback_url x)
  /\ dict_get (RecipeRequest.dict x) "enable_pantry_items" =
     option_map VBool (RecipeRequest.enable_pantry_items x).
Proof. unfold RecipeRequest.dict, entry. repeat split; lookup_field. Qed.

Lemma shopping_list_dict_inj (x y : ShoppingListRequest.t) :
  ShoppingListRequest.dict x = ShoppingListRequest.dict y -> x = y.
Proof.
  intros H.
  destruct (shopping_list_lookups x) as (Ht & Hl & Hi & Hins & Hp).
  destruct (shopping_list_lookups y) as (Ht' & Hl' & Hi' & Hins' & Hp').
  rewrite H in Ht, Hl, Hi, Hins, Hp.
  rewrite Ht in Ht'. rewrite Hl in Hl'. rewrite Hi in Hi'.
  rewrite Hins in Hins'. rewrite Hp in Hp'.
  injection Ht' as Ht'. injection Hl' as Hl'.
  apply (map_inj _ line_item_dict_inj) in Hl'.
  apply (option_map_inj VStr VStr_inj) in Hi', Hp'.
  apply (option_map_inj str_list_value str_list_value_inj) in Hins'.
  destruct x, y; simpl in *. congruence.
Qed.

Lemma recipe_dict_inj (x y : RecipeRequest.t) :
  RecipeRequest.dict x = RecipeRequest.dict y -> x = y.
Proof.
  intros H.
  destruct (recipe_lookups x) as (Ht & Hl & Hi & Ha & Hs & Hc & Hins & Hp & He).
  destruct (recipe_lookups y) as (Ht' & Hl' & Hi' & Ha' & Hs' & Hc' & Hins' & Hp' & He').
  rewrite H in Ht, Hl, Hi, Ha, Hs, Hc, Hins, Hp, He.
  rewrite Ht in Ht'. rewrite Hl in Hl'. rewrite Hi in Hi'. rewrite Ha in Ha'.
  rewrite Hs in Hs'. rewrite Hc in Hc'. rewrite Hins in Hins'. rewrite Hp in Hp'.
  rewrite He in He'.
  injection Ht' as Ht'. injection Hl' as Hl'.
  apply (map_inj _ ingredient_dict_inj) in Hl'.
  apply (option_map_inj VStr VStr_inj) in Hi', Ha', Hp'.
  apply (option_map_inj VInt VInt_inj) in Hs', Hc'.
  apply (option_map_inj str_list_value str_list_value_inj) in Hins'.
  apply (option_map_inj VBool VBool_inj) in He'.
  destruct x, y; simpl in *. congruence.
Qed.

Lemma shopping_list_data_app (x : ShoppingListRequest.t) :
  shopping_list_data x =
  ShoppingListRequest.dict x ++ [("link_type", VStr "shopping_list")].
Proof.
  unfold shopping_list_data. apply dict_set_fresh. apply dict_get_None_iff.
  destruct x as [t l [i|] [ins|] [p|]]; reflexivity.
Qed.

(** X12: dropping the [None] fields loses nothing: two different
    shopping-list requests never send the same payload, so the payload
    tells which request was made; the same holds for each line item. *)
Theorem shopping_list_payload_injective :
  (forall x y : ShoppingListRequest.t,
      x <> y -> shopping_list_data x <> shopping_list_data y)
  /\ (forall x y : LineItem.t, x <> y -> LineItem.dict x <> LineItem.dict y).
Proof.
  split.
  - intros x y Hne Heq. apply Hne.
    rewrite !shopping_list_data_app in Heq. apply app_inv_tail in Heq.
    apply shopping_list_dict_inj. exact Heq.
  - intros x y Hne Heq. apply Hne.
    apply line_item_dict_inj. rewrite Heq. reflexivity.
Qed.

Lemma shopping_list_payload_injective_witness :
  shopping_list_data (ShoppingListRequest.mk "Snacks" [] None None None)
  <> shopping_list_data (ShoppingListRequest.mk "Snacks" [] None (Some []) None).
Proof.
  apply (proj1 shopping_list_payload_injective).
  intros H. discriminate H.
Defined.

(** X13: two different recipe requests never send the same payload, and
    two different ingredients never give the same entry. *)
Theorem recipe_payload_injective :
  (forall x y : RecipeRequest.t,
      x <> y -> RecipeRequest.dict x <> RecipeRequest.dict y)
  /\ (forall x y : Ingredient.t, x <> y -> Ingredient.dict x <> Ingredient.dict y).
Proof.
  split.
  - intros x y Hne Heq. apply Hne. apply recipe_dict_inj. exact Heq.
  - intros x y Hne Heq. apply Hne.
    apply ingredient_dict_inj. rewrite Heq. reflexivity.
Qed.

Lemma recipe_payload_injective_witness :
  RecipeRequest.dict
    (RecipeRequest.mk "Chili" [] None None None None None None (Some false))
  <> RecipeRequest.dict
       (RecipeRequest.mk "Chili" [] None None None None None None None).
Proof.
  apply (proj1 recipe_payload_injective).
  intros H. discriminate H.
Defined.

(** ** Which requests can be sent *)

Lemma strings_encodable (l : list string) : forallb json_encodable (map VStr l) = true.
Proof. induction l; simpl; auto. Qed.

Lemma line_item_encodable (x : LineItem.t) :
  json_encodable (VDict (LineItem.dict x)) =
  option_all (fun n => json_encodable (number_value n)) (LineItem.quantity x).
Proof.
  destruct x as [n [q|] [u|] [t|]]; unfold LineItem.dict; simpl;
    rewrite ?andb_true_r; reflexivity.
Qed.

Lemma ingredient_encodable (x : Ingredient.t) :
  json_encodable (VDict (Ingredient.dict x)) =
  option_all is_finite (Ingredient.quantity x).
Proof.
  destruct x as [n [t|] [q|] [u|]]; unfold Ingredient.dict; simpl;
    rewrite ?andb_true_r; reflexivity.
Qed.

Lemma line_items_encodable (l : list LineItem.t) :
  forallb json_encodable (map (fun i => VDict (LineItem.dict i)) l) =
  forallb (fun i => option_all (fun n => json_encodable (number_value n))
                               (LineItem.quantity i)) l.
Proof.
  induction l as [|x l IH]; [reflexivity | ].
  cbn [map forallb]. rewrite line_item_encodable, IH. reflexivity.
Qed.

Lemma ingredients_encodable (l : list Ingredient.t) :
  forallb json_encodable (map (fun i => VDict (Ingredient.dict i)) l) =
  forallb (fun i => option_all is_finite (Ingredient.quantity i)) l.
Proof.
  induction l as [|x l IH]; [reflexivity | ].
  cbn [map forallb]. rewrite ingredient_encodable, IH. reflexivity.
Qed.

Lemma shopping_list_encodable (request : ShoppingListRequest.t) :
  json_encodable (VDict (shopping_list_data request)) =
  forallb (fun i => option_all (fun n => json_encodable (number_value n))
                               (LineItem.quantity i))
          (ShoppingListRequest.line_items request).
Proof.
  rewrite shopping_list_data_app.
  destruct request as [t l [i|] [ins|] [p|]];
    unfold ShoppingListRequest.dict, str_list_value; simpl;
    rewrite ?strings_encodable, line_items_encodable; simpl;
    rewrite ?andb_true_r; reflexivity.
Qed.

Lemma recipe_encodable (request : RecipeRequest.t) :
  json_encodable (VDict (RecipeRequest.dict request)) =
  forallb (fun i => option_all is_finite (Ingredient.quantity i))
          (RecipeRequest.ingredients request)
  && option_all int_encodable (RecipeRequest.servings request)
  && option_all int_encodable (RecipeRequest.cooking_time request).
Proof.
  destruct request as [t l [i|] [a|] [s|] [c|] [ins|] [p|] [e|]];
    unfold RecipeRequest.dict, str_list_value, int_encodable; simpl;
    rewrite ?strings_encodable, ingredients_encodable; simpl;
    rewrite ?andb_true_r;
    repeat match goal with
           | |- context [forallb ?f l] => destruct (forallb f l); simpl
           | |- context [(decimal_digits ?z <=? ?n)%nat] =>
               destruct (decimal_digits z <=? n)%nat; simpl
           end; reflexivity.
Qed.

(** X14: [create_shopping_list] issues one request when the selected
    credential is usable and every line-item quantity is a finite number,
    and none otherwise: a single NaN or infinite quantity in a valid
    request keeps the whole list from being sent. *)
Theorem shopping_list_issued_iff :
  forall (cfg : Config) (net : Network) (log : list Request)
         (request : ShoppingListRequest.t),
    length (issued (create_shopping_list cfg net request) log) =
    if usable_credential cfg
       && forallb (fun i => option_all (fun n => json_encodable (number_value n))
                                       (LineItem.quantity i))
                  (ShoppingListRequest.line_items request)
    then 1%nat else 0%nat.
Proof.
  intros cfg net log request. unfold create_shopping_list.
  rewrite <- shopping_list_encodable.
  destruct (usable_credential cfg && json_encodable (VDict (shopping_list_data request)))
    eqn:Hsend.
  - apply andb_true_iff in Hsend. destruct Hsend as [Hascii Hjson].
    rewrite call_issued by assumption. reflexivity.
  - rewrite call_issued_nil by assumption. reflexivity.
Qed.

(** X15: [create_recipe] issues one request when the selected credential
    is usable, every ingredient quantity is finite and servings and
    cooking_time, when present, have at most 4300 digits, and none
    otherwise. *)
Theorem recipe_issued_iff :
  forall (cfg : Config) (net : Network) (log : list Request)
         (request : RecipeRequest.t),
    length (issued (create_recipe cfg net request) log) =
    if usable_credential cfg
       && (forallb (fun i => option_all is_finite (Ingredient.quantity i))
                   (RecipeRequest.ingredients request)
           && option_all int_encodable (RecipeRequest.servings request)
           && option_all int_encodable (RecipeRequest.cooking_time request))
    then 1%nat else 0%nat.
Proof.
  intros cfg net log request. unfold create_recipe.
  rewrite <- recipe_encodable.
  destruct (usable_credential cfg && json_encodable (VDict (RecipeRequest.dict request)))
    eqn:Hsend.
  - apply andb_true_iff in Hsend. destruct Hsend as [Hascii Hjson].
    rewrite call_issued by assumption. reflexivity.
  - rewrite call_issued_nil by assumption. reflexivity.
Qed.

(** A credential that is defined but empty leaves the header value ending
    in a blank: the connection comes up, the request is refused with a
    protocol error, and nothing is sent. *)
Example empty_credential_run :
  _call_instacart_api empty_key_config (answering ok_response)
                      "products/recipe" [("title", VStr "Chili")] [] =
  ([], inl (TransportError LocalProtocolError)).
Proof. reflexivity. Qed.

(** A credential that is not ASCII stops the call while the request is
    built. *)
Example accented_credential_run :
  _call_instacart_api accented_config (answering ok_response)
                      "products/recipe" [("title", VStr "Chili")] [] =
  ([], inl UnicodeEncodeError).
Proof. reflexivity. Qed.
